(** * Fivetran connector orchestration: a shallow embedding of [file.py]

    The notebook defines one class, [FivetranAPI], whose [__call__]
    resumes a paused connector, polls its sync status until it is no
    longer ['syncing'], and pauses the connector again.  The class talks
    to the outside world (secret store, HTTP, clock, console); here every
    such action is an [event] appended to a log, and the answers of the
    outside world are read from a [World]. *)

From Stdlib Require Import ZArith Ascii String List Lia.
From stdpp Require Import base strings list gmap.

Local Open Scope string_scope.
Local Open Scope Z_scope.
Local Open Scope list_scope.

(** ** Values exchanged with the control plane *)

(** The object returned by [Response.json()]: a Python value built from
    dicts, lists, strings, numbers, booleans and [None]. *)
#[local] Unset Elimination Schemes.
Inductive json : Type :=
| JNull
| JBool (b : bool)
| JInt (z : Z)
| JFloat (literal : string)
| JStr (s : string)
| JList (items : list json)
| JDict (fields : gmap string json).
#[local] Set Elimination Schemes.

(** What [requests.get] / [requests.patch] hand back: either the call
    itself raises (no connection, timeout, ...) or a response object
    arrives.  [resp_json] is [None] when the body is not valid JSON, the
    case in which [Response.json()] raises. *)
Record response : Type := Response {
  status_code : Z;
  resp_json : option json
}.

Inductive reply : Type :=
| NetFail
| NetResp (r : response).

(** The Python exceptions that can escape from the class. *)
Inductive exn : Type :=
| ConnectionError
| HTTPError (code : Z)
| JSONDecodeError
| KeyError (key : string)
| TypeError.

(** The outside world of one run.  The program is sequential, so the
    answers it receives are determined by the position of each request
    among the requests of its kind. *)
Record World : Type := {
  secrets_get : string -> string -> string;
  widgets_get : string -> string;
  get_reply : nat -> reply;
  patch_reply : nat -> reply
}.

(** The body of the PATCH request, [{'paused': status_paused}]. *)
Record payload : Type := Payload { paused : bool }.

(** The pieces of a printed line: literal text and formatted values. *)
Inductive piece : Type :=
| Lit (s : string)
| Val (v : json)
| Num (z : Z).

(** Everything the program does to the outside world, in order. *)
Inductive event : Type :=
| SecretsGet (scope key : string)
| WidgetsGet (name : string)
| RequestsGet (url : string) (headers : gmap string string) (r : reply)
| RequestsPatch (url : string) (auth : string * string)
    (headers : gmap string string) (body : payload) (r : reply)
| Sleep (seconds : Z)
| Print (line : list piece).

Definition is_get (e : event) : bool :=
  match e with RequestsGet _ _ _ => true | _ => false end.

Definition is_patch (e : event) : bool :=
  match e with RequestsPatch _ _ _ _ _ => true | _ => false end.

Definition is_pause (e : event) : bool :=
  match e with RequestsPatch _ _ _ p _ => paused p | _ => false end.

Definition is_unpause (e : event) : bool :=
  match e with RequestsPatch _ _ _ p _ => negb (paused p) | _ => false end.

Definition is_network (e : event) : bool := is_get e || is_patch e.

Fixpoint count (p : event -> bool) (log : list event) : nat :=
  match log with
  | [] => O
  | e :: log' => if p e then S (count p log') else count p log'
  end.

(** ** A monad for the effects of the class

    A computation reads the log written so far, extends it, and either
    returns, raises, or is cut off while the polling loop is still
    running ([StillPolling]: the loop bound of the model is used up). *)
Inductive outcome (A : Type) : Type :=
| Returned (a : A)
| Raised (e : exn)
| StillPolling.
Arguments Returned {A} a.
Arguments Raised {A} e.
Arguments StillPolling {A}.

Definition M (A : Type) : Type := list event -> outcome A * list event.

Definition ret {A} (a : A) : M A := fun log => (Returned a, log).

Definition bind {A B} (m : M A) (k : A -> M B) : M B :=
  fun log =>
    match m log with
    | (Returned a, log') => k a log'
    | (Raised e, log') => (Raised e, log')
    | (StillPolling, log') => (StillPolling, log')
    end.

Definition raise {A} (e : exn) : M A := fun log => (Raised e, log).

Definition emit (e : event) : M unit := fun log => (Returned tt, log ++ [e]).

#[global] Instance M_ret : MRet M := @ret.
#[global] Instance M_bind : MBind M := fun A B k m => bind m k.

(** ** Library calls *)

Section Program.

Variable w : World.

Definition dbutils_secrets_get (scope key : string) : M string :=
  emit (SecretsGet scope key);; mret (secrets_get w scope key).

Definition dbutils_widgets_get (name : string) : M string :=
  emit (WidgetsGet name);; mret (widgets_get w name).

Definition time_sleep (seconds : Z) : M unit := emit (Sleep seconds).

Definition print (line : list piece) : M unit := emit (Print line).

(** [requests.get(url, headers=headers)]: the request goes out, and the
    call raises when no response comes back. *)
Definition requests_get (url : string) (headers : gmap string string)
  : M response :=
  fun log =>
    let r := get_reply w (count is_get log) in
    let log' := log ++ [RequestsGet url headers r] in
    match r with
    | NetFail => (Raised ConnectionError, log')
    | NetResp resp => (Returned resp, log')
    end.

(** [requests.patch(url, auth=..., headers=..., json=...)].  As for
    [requests_get], [NetFail] stands for every way in which the call
    itself raises instead of handing back a response; the model has one
    exception for them, [ConnectionError]. *)
Definition requests_patch (url : string) (auth : string * string)
    (headers : gmap string string) (body : payload) : M response :=
  fun log =>
    let r := patch_reply w (count is_patch log) in
    let log' := log ++ [RequestsPatch url auth headers body r] in
    match r with
    | NetFail => (Raised ConnectionError, log')
    | NetResp resp => (Returned resp, log')
    end.

(** [Response.raise_for_status()] of the requests library raises
    [HTTPError] for the client and server error codes, 400 to 599, and
    returns for every other code. *)
Definition raise_for_status (resp : response) : M unit :=
  if (400 <=? status_code resp) && (status_code resp <? 600)
  then raise (HTTPError (status_code resp))
  else mret tt.

(** [Response.json()]. *)
Definition response_json (resp : response) : M json :=
  match resp_json resp with
  | Some v => mret v
  | None => raise JSONDecodeError
  end.

(** [v[key]] for a string key: only a dict can be indexed by a string,
    and the key has to be present. *)
Definition getitem (v : json) (key : string) : M json :=
  match v with
  | JDict d =>
      match d !! key with
      | Some x => mret x
      | None => raise (KeyError key)
      end
  | _ => raise TypeError
  end.

(** [v == s] for a string literal [s]. *)
Definition eq_str (v : json) (s : string) : bool :=
  match v with
  | JStr s' => bool_decide (s' = s)
  | _ => false
  end.

(** [v in [s1, ..., sn]]. *)
Definition in_strs (v : json) (l : list string) : bool :=
  existsb (eq_str v) l.

(** [base64.b64encode] on the bytes of a string. *)
Definition b64_table : string :=
  "ABCDEFGHIJKLMNOPQRSTUVWXYZabcdefghijklmnopqrstuvwxyz0123456789+/".

Definition b64_digit (n : N) : ascii :=
  match String.get (N.to_nat n) b64_table with
  | Some c => c
  | None => "="%char
  end.

Fixpoint b64_blocks (bs : list N) : list ascii :=
  match bs with
  | [] => []
  | [a] =>
      [b64_digit (N.shiftr a 2); b64_digit (N.shiftl (N.land a 3) 4);
       "="%char; "="%char]
  | [a; b] =>
      [b64_digit (N.shiftr a 2);
       b64_digit (N.lor (N.shiftl (N.land a 3) 4) (N.shiftr b 4));
       b64_digit (N.shiftl (N.land b 15) 2); "="%char]
  | a :: b :: c :: rest =>
      b64_digit (N.shiftr a 2)
      :: b64_digit (N.lor (N.shiftl (N.land a 3) 4) (N.shiftr b 4))
      :: b64_digit (N.lor (N.shiftl (N.land b 15) 2) (N.shiftr c 6))
      :: b64_digit (N.land c 63)
      :: b64_blocks rest
  end.

Definition b64encode (s : string) : string :=
  string_of_list_ascii (b64_blocks (map N_of_ascii (list_ascii_of_string s))).

(** ** The class [FivetranAPI] *)

Record FivetranAPI : Type := {
  URL : string;
  API_KEY : string;
  API_SECRET : string;
  CONNECTOR_NAME : string
}.

(** The dict literal of [__init__]: logical name to connector id. *)
Definition CONNECTOR_IDS : gmap string string :=
  {[ "sherwood_palsql" := "tidy_interval";
     "fsq_labworks" := "intensive_usefulness";
     "hubspot" := "embarkation_cropped";
     "tulare_soiltestvtaglab" := "shucking_fresco";
     "netsuite_suiteanalytics" := "decayed_neat" ]}.

(** [d[key]] on a dict of strings: [KeyError] for a missing key. *)
Definition dict_getitem (d : gmap string string) (key : string) : M string :=
  match d !! key with
  | Some v => mret v
  | None => raise (KeyError key)
  end.

(** [FivetranAPI.__init__]. *)
Definition init (connector_name : string) : M FivetranAPI :=
  let url := "https://api.fivetran.com/v1" in
  api_key ← dbutils_secrets_get "fivetran_bi_service" "api_key";
  api_secret ← dbutils_secrets_get "fivetran_bi_service" "api_secret";
  id ← dict_getitem CONNECTOR_IDS connector_name;
  mret {| URL := url; API_KEY := api_key; API_SECRET := api_secret;
          CONNECTOR_NAME := id |}.

(** [FivetranAPI.get_auth_header]. *)
Definition get_auth_header (self : FivetranAPI) : gmap string string :=
  let credentials := API_KEY self +:+ ":" +:+ API_SECRET self in
  let token := b64encode credentials in
  {[ "Authorization" := "Basic " +:+ token ]}.

(** [FivetranAPI.get_sync_status]. *)
Definition get_sync_status (self : FivetranAPI) (headers : gmap string string)
  : M json :=
  let url := URL self +:+ "/connections/" +:+ CONNECTOR_NAME self in
  resp ← requests_get url headers;
  raise_for_status resp;;
  body ← response_json resp;
  data ← getitem body "data";
  status ← getitem data "status";
  sync_state ← getitem status "sync_state";
  mret sync_state.

(** [FivetranAPI.set_connector_paused_status]. *)
Definition set_connector_paused_status (self : FivetranAPI)
    (status_paused : bool) : M unit :=
  let url := URL self +:+ "/connectors/" +:+ CONNECTOR_NAME self in
  let headers : gmap string string :=
    {[ "Content-Type" := "application/json" ]} in
  let body := {| paused := status_paused |} in
  response ← requests_patch url (API_KEY self, API_SECRET self) headers body;
  if status_code response =? 200 then
    let status := if status_paused then "PAUSED" else "UNPAUSED" in
    print [Lit ("Connector " +:+ CONNECTOR_NAME self
                +:+ " was successfully " +:+ status +:+ ".")]
  else
    print [Lit "Error updating the connector: "; Num (status_code response)];;
    v ← response_json response;
    print [Val v].

(** The [while True] loop of [__call__].  [fuel] bounds the number of
    iterations the model follows; the value returned is the last value
    of the local variable [status]. *)
Fixpoint polling (fuel : nat) (self : FivetranAPI)
    (auth_header : gmap string string) : M json :=
  match fuel with
  | O => fun log => (StillPolling, log)
  | S fuel' =>
      status ← get_sync_status self auth_header;
      print [Lit "Sync Status: "; Val status];;
      if negb (in_strs status ["syncing"]) then
        print [Lit "Sync ended -> status: "; Val status];;
        mret status
      else
        time_sleep 30;;
        polling fuel' self auth_header
  end.

(** [FivetranAPI.__call__]. *)
Definition call (fuel : nat) (self : FivetranAPI) : M unit :=
  let auth_header := get_auth_header self in
  status0 ← get_sync_status self auth_header;
  (if eq_str status0 "paused"
   then set_connector_paused_status self false
   else mret tt);;
  print [Lit "Waiting 15 seconds to start the monitoring!"];;
  time_sleep 15;;
  polling fuel self auth_header;;
  print [Lit "Repausing Sync!"];;
  set_connector_paused_status self true;;
  print [Lit "Start your pipeline!"].

(** The [__main__] block. *)
Definition main (fuel : nat) : M unit :=
  name ← dbutils_widgets_get "connector_name";
  self ← init name;
  call fuel self.

End Program.

(** ** Sample worlds *)

Definition status_body (s : string) : json :=
  JDict {[ "data" := JDict {[ "status" := JDict {[ "sync_state" := JStr s ]} ]} ]}.

Definition ok_status (s : string) : reply :=
  NetResp {| status_code := 200; resp_json := Some (status_body s) |}.

Definition ok_patch : reply :=
  NetResp {| status_code := 200; resp_json := Some (JDict ∅) |}.

(** A world that answers the status queries with the listed statuses,
    then with [last] for ever, and accepts every mutation. *)
Definition scripted (statuses : list string) (last : string) : World :=
  {| secrets_get := fun _ key => key;
     widgets_get := fun _ => "hubspot";
     get_reply := fun n => ok_status (nth n statuses last);
     patch_reply := fun _ => ok_patch |}.

Definition hubspot : FivetranAPI :=
  {| URL := "https://api.fivetran.com/v1"; API_KEY := "api_key";
     API_SECRET := "api_secret"; CONNECTOR_NAME := "embarkation_cropped" |}.

(** ** What one request amounts to

    Apart from the request itself, [get_sync_status] and
    [set_connector_paused_status] depend on the log only through the
    reply they receive.  [read_status] and [mutation] describe them as
    functions of that reply; [get_sync_status_eq] and
    [set_connector_paused_status_eq] below prove the descriptions. *)

Definition item (v : json) (key : string) : outcome json :=
  match v with
  | JDict d =>
      match d !! key with
      | Some x => Returned x
      | None => Raised (KeyError key)
      end
  | _ => Raised TypeError
  end.

Definition and_then {A B} (o : outcome A) (k : A -> outcome B) : outcome B :=
  match o with
  | Returned a => k a
  | Raised e => Raised e
  | StillPolling => StillPolling
  end.

Definition read_status (r : reply) : outcome json :=
  match r with
  | NetFail => Raised ConnectionError
  | NetResp resp =>
      if (400 <=? status_code resp) && (status_code resp <? 600)
      then Raised (HTTPError (status_code resp))
      else
        match resp_json resp with
        | None => Raised JSONDecodeError
        | Some body =>
            and_then (item body "data") (fun data =>
            and_then (item data "status") (fun status =>
            item status "sync_state"))
        end
  end.

Definition status_url (self : FivetranAPI) : string :=
  URL self +:+ "/connections/" +:+ CONNECTOR_NAME self.

Definition status_query (self : FivetranAPI) (r : reply) : event :=
  RequestsGet (status_url self) (get_auth_header self) r.

Definition set_paused (self : FivetranAPI) (b : bool) (r : reply) : event :=
  RequestsPatch (URL self +:+ "/connectors/" +:+ CONNECTOR_NAME self)
    (API_KEY self, API_SECRET self)
    {[ "Content-Type" := "application/json" ]} {| paused := b |} r.

Definition success_line (self : FivetranAPI) (b : bool) : event :=
  Print [Lit ("Connector " +:+ CONNECTOR_NAME self +:+ " was successfully "
              +:+ (if b then "PAUSED" else "UNPAUSED") +:+ ".")].

Definition error_line (code : Z) : event :=
  Print [Lit "Error updating the connector: "; Num code].

(** Outcome of a mutation and the lines it prints, given the reply. *)
Definition mutation (self : FivetranAPI) (b : bool) (r : reply)
  : outcome unit * list event :=
  match r with
  | NetFail => (Raised ConnectionError, [])
  | NetResp resp =>
      if status_code resp =? 200 then (Returned tt, [success_line self b])
      else
        match resp_json resp with
        | Some v => (Returned tt, [error_line (status_code resp); Print [Val v]])
        | None => (Raised JSONDecodeError, [error_line (status_code resp)])
        end
  end.

Definition waiting_line : event :=
  Print [Lit "Waiting 15 seconds to start the monitoring!"].
Definition status_line (v : json) : event := Print [Lit "Sync Status: "; Val v].
Definition ended_line (v : json) : event :=
  Print [Lit "Sync ended -> status: "; Val v].
Definition repausing_line : event := Print [Lit "Repausing Sync!"].
Definition start_line : event := Print [Lit "Start your pipeline!"].

(** The replies to the status queries of a log, in order. *)
Fixpoint replies (log : list event) : list reply :=
  match log with
  | [] => []
  | RequestsGet _ _ r :: log' => r :: replies log'
  | _ :: log' => replies log'
  end.

(** ** The shape of a run *)

Section Shape.

Variable w : World.
Variable self : FivetranAPI.

(** [polls n fuel o ext]: the loop, entered when [n] status queries have
    been made and followed for [fuel] iterations, ends as [o] after
    writing [ext]. *)
Inductive polls : nat -> nat -> outcome json -> list event -> Prop :=
| polls_cut n :
    polls n O StillPolling []
| polls_again n fuel v o ext :
    read_status (get_reply w n) = Returned v ->
    in_strs v ["syncing"] = true ->
    polls (S n) fuel o ext ->
    polls n (S fuel) o
      (status_query self (get_reply w n) :: status_line v :: Sleep 30 :: ext)
| polls_end n fuel v :
    read_status (get_reply w n) = Returned v ->
    in_strs v ["syncing"] = false ->
    polls n (S fuel) (Returned v)
      [status_query self (get_reply w n); status_line v; ended_line v]
| polls_raise n fuel e :
    read_status (get_reply w n) = Raised e ->
    polls n (S fuel) (Raised e) [status_query self (get_reply w n)].

(** The events of the resume step for initial status [v0]. *)
Definition resume (v0 : json) : outcome unit * list event :=
  if eq_str v0 "paused"
  then (fst (mutation self false (patch_reply w 0)),
        set_paused self false (patch_reply w 0)
        :: snd (mutation self false (patch_reply w 0)))
  else (Returned tt, []).

(** [finishing n lo o ext]: what follows a loop that ended as [lo], when
    [n] mutations have been issued before. *)
Inductive finishing (n : nat) : outcome json -> outcome unit -> list event -> Prop :=
| finishing_cut :
    finishing n StillPolling StillPolling []
| finishing_raised e :
    finishing n (Raised e) (Raised e) []
| finishing_pause_raises v e :
    fst (mutation self true (patch_reply w n)) = Raised e ->
    finishing n (Returned v) (Raised e)
      (repausing_line :: set_paused self true (patch_reply w n)
       :: snd (mutation self true (patch_reply w n)))
| finishing_done v :
    fst (mutation self true (patch_reply w n)) = Returned tt ->
    finishing n (Returned v) (Returned tt)
      (repausing_line :: set_paused self true (patch_reply w n)
       :: snd (mutation self true (patch_reply w n)) ++ [start_line]).

(** [run fuel o tr]: one call of the object ends as [o] with trace [tr]. *)
Inductive run (fuel : nat) : outcome unit -> list event -> Prop :=
| run_start_raises e :
    read_status (get_reply w 0) = Raised e ->
    run fuel (Raised e) [status_query self (get_reply w 0)]
| run_resume_raises v0 e :
    read_status (get_reply w 0) = Returned v0 ->
    fst (resume v0) = Raised e ->
    run fuel (Raised e) (status_query self (get_reply w 0) :: snd (resume v0))
| run_polls v0 lo lext o fext :
    read_status (get_reply w 0) = Returned v0 ->
    fst (resume v0) = Returned tt ->
    polls 1 fuel lo lext ->
    finishing (count is_patch (snd (resume v0))) lo o fext ->
    run fuel o
      (status_query self (get_reply w 0) :: snd (resume v0)
       ++ waiting_line :: Sleep 15 :: lext ++ fext).

End Shape.

(** ** The names the specification gives to the errors

    The class raises the exceptions of Python and of the requests
    library.  The design document groups the ones that escape from a
    status read into two classes. *)
Inductive error_class : Type := TransportError | ProtocolError.

Definition status_read_error (e : exn) : error_class :=
  match e with
  | ConnectionError | HTTPError _ => TransportError
  | JSONDecodeError | KeyError _ | TypeError => ProtocolError
  end.

(** The value at [data.status.sync_state] of a response body, when the
    body has that field. *)
Definition sync_state_field (body : json) : option json :=
  match body with
  | JDict b =>
      match b !! "data" with
      | Some (JDict d) =>
          match d !! "status" with
          | Some (JDict s) => s !! "sync_state"
          | _ => None
          end
      | _ => None
      end
  | _ => None
  end.

(** ** Scenarios *)

(** The connector is found paused, syncs for one poll and is then
    reported as rescheduled. *)
Definition paused_world : World := scripted ["paused"; "syncing"] "rescheduled".

Definition paused_trace : list event :=
  [status_query hubspot (ok_status "paused");
   set_paused hubspot false ok_patch;
   success_line hubspot false;
   waiting_line;
   Sleep 15;
   status_query hubspot (ok_status "syncing");
   status_line (JStr "syncing");
   Sleep 30;
   status_query hubspot (ok_status "rescheduled");
   status_line (JStr "rescheduled");
   ended_line (JStr "rescheduled");
   repausing_line;
   set_paused hubspot true ok_patch;
   success_line hubspot true;
   start_line].

(** The connector is found rescheduled and stays so. *)
Definition rescheduled_world : World := scripted [] "rescheduled".

Definition rescheduled_trace : list event :=
  [status_query hubspot (ok_status "rescheduled");
   waiting_line;
   Sleep 15;
   status_query hubspot (ok_status "rescheduled");
   status_line (JStr "rescheduled");
   ended_line (JStr "rescheduled");
   repausing_line;
   set_paused hubspot true ok_patch;
   success_line hubspot true;
   start_line].

(** The connection drops at the second poll of a syncing connector. *)
Definition dropping_world : World :=
  {| secrets_get := fun _ key => key;
     widgets_get := fun _ => "hubspot";
     get_reply := fun n => if (n <? 2)%nat then ok_status "syncing" else NetFail;
     patch_reply := fun _ => ok_patch |}.

Definition dropping_prefix : list event :=
  [status_query hubspot (ok_status "syncing");
   waiting_line;
   Sleep 15;
   status_query hubspot (ok_status "syncing");
   status_line (JStr "syncing");
   Sleep 30].

(** The control plane answers a mutation with [204 No Content]. *)
Definition no_content : reply :=
  NetResp {| status_code := 204; resp_json := None |}.

Definition no_content_world : World :=
  {| secrets_get := fun _ key => key;
     widgets_get := fun _ => "hubspot";
     get_reply := fun _ => ok_status "rescheduled";
     patch_reply := fun _ => no_content |}.

(** The control plane answers a mutation with [201 Created] and a JSON
    body. *)
Definition created : reply :=
  NetResp {| status_code := 201; resp_json := Some (JDict ∅) |}.

Definition created_world : World :=
  {| secrets_get := fun _ key => key;
     widgets_get := fun _ => "hubspot";
     get_reply := fun _ => ok_status "rescheduled";
     patch_reply := fun _ => created |}.

(** The control plane rejects every mutation with [403] and a JSON body. *)
Definition forbidden : reply :=
  NetResp {| status_code := 403;
             resp_json := Some (JDict {[ "code" := JStr "Forbidden" ]}) |}.

Definition forbidden_world : World :=
  {| secrets_get := fun _ key => key;
     widgets_get := fun _ => "hubspot";
     get_reply := fun n => ok_status (nth n ["paused"] "rescheduled");
     patch_reply := fun _ => forbidden |}.

Definition multiple_choices : reply :=
  NetResp {| status_code := 300; resp_json := Some (status_body "paused") |}.

(** A world whose control plane answers every status query with
    [300 Multiple Choices] and a well-formed body. *)
Definition redirecting : World :=
  {| secrets_get := fun _ key => key;
     widgets_get := fun _ => "hubspot";
     get_reply := fun _ => multiple_choices;
     patch_reply := fun _ => ok_patch |}.

(** A world whose control plane cannot be reached. *)
Definition unreachable : World :=
  {| secrets_get := fun _ key => key;
     widgets_get := fun _ => "hubspot";
     get_reply := fun _ => NetFail;
     patch_reply := fun _ => NetFail |}.

(** ** Measures of a trace *)

(** The seconds a trace spends in [time.sleep]. *)
Fixpoint total_sleep (log : list event) : Z :=
  match log with
  | [] => 0
  | Sleep seconds :: log' => seconds + total_sleep log'
  | _ :: log' => total_sleep log'
  end.

Definition is_sleep (e : event) : bool :=
  match e with Sleep _ => true | _ => false end.

(** The events that write the console line [Start your pipeline!]: the
    print of that literal at the end of [__call__], and the print of a
    response body that is the JSON string with the same text
    ([print(response.json())] writes a string as it is).  Every other
    line of the class starts with other words, and a body that is not a
    string is written in another form. *)
Definition shows_start_line (e : event) : bool :=
  match e with
  | Print [Lit s] => String.eqb s "Start your pipeline!"
  | Print [Val (JStr s)] => String.eqb s "Start your pipeline!"
  | _ => false
  end.

Definition is_print (e : event) : bool :=
  match e with Print _ => true | _ => false end.

(** The last line a trace writes to the console. *)
Fixpoint last_line (log : list event) : option event :=
  match log with
  | [] => None
  | e :: log' =>
      match last_line log' with
      | Some e' => Some e'
      | None => if is_print e then Some e else None
      end
  end.

(** A reply on which a mutation returns: a response with status 200, or
    with any status and a JSON body. *)
Definition answered (r : reply) : Prop :=
  exists resp,
    r = NetResp resp /\ (status_code resp = 200 \/ resp_json resp <> None).

(** A network event is a request of the object when it is a status query
    on its connector with its authorisation header, or a mutation of its
    connector with its credentials. *)
Definition own_request (self : FivetranAPI) (e : event) : Prop :=
  is_network e = true ->
  (exists r, e = status_query self r) \/ (exists b r, e = set_paused self b r).

(** ** Reading a token back *)

(** The position of a character in [b64_table]; 64 for any other
    character. *)
Fixpoint index_from (i : N) (c : ascii) (table : string) : N :=
  match table with
  | EmptyString => i
  | String c' table' =>
      if Ascii.eqb c c' then i else index_from (N.succ i) c table'
  end.

Definition b64_index (c : ascii) : N := index_from 0 c b64_table.

(** The inverse of [b64_blocks], as [base64.b64decode] computes it on
    well-formed input: four characters give three bytes, fewer when the
    group ends in padding. *)
Fixpoint b64_unblocks (cs : list ascii) : list N :=
  match cs with
  | c0 :: c1 :: c2 :: c3 :: rest =>
      let s0 := b64_index c0 in
      let s1 := b64_index c1 in
      let s2 := b64_index c2 in
      let s3 := b64_index c3 in
      let x := N.lor (N.shiftl s0 2) (N.shiftr s1 4) in
      let y := N.lor (N.shiftl (N.land s1 15) 4) (N.shiftr s2 2) in
      let z := N.lor (N.shiftl (N.land s2 3) 6) s3 in
      if Ascii.eqb c2 "="%char then [x]
      else if Ascii.eqb c3 "="%char then [x; y]
      else x :: y :: z :: b64_unblocks rest
  | _ => []
  end.

Definition b64decode (s : string) : string :=
  string_of_list_ascii (map ascii_of_N (b64_unblocks (list_ascii_of_string s))).

(** All byte values, for checks by enumeration. *)
Definition bytes : list N := map N.of_nat (seq 0 256).

Definition same_bytes (l1 l2 : list N) : bool :=
  bool_decide (l1 = l2).

Fixpoint no_colon (s : string) : bool :=
  match s with
  | EmptyString => true
  | String c s' => negb (Ascii.eqb c ":"%char) && no_colon s'
  end.

(** ** Counting events *)

Lemma count_app p (l1 l2 : list event) :
  count p (l1 ++ l2) = (count p l1 + count p l2)%nat.
Proof.
  induction l1 as [|e l1 IH]; simpl; [reflexivity|].
  destruct (p e); simpl; rewrite IH; reflexivity.
Qed.

Lemma replies_app (l1 l2 : list event) :
  replies (l1 ++ l2) = replies l1 ++ replies l2.
Proof.
  induction l1 as [|e l1 IH]; simpl; [reflexivity|].
  destruct e; simpl; rewrite ?IH; reflexivity.
Qed.

Lemma count_zero_elem p (l : list event) e :
  count p l = O -> e ∈ l -> p e = false.
Proof.
  induction l as [|x l IH]; simpl; intros Hc Hin.
  - inversion Hin.
  - destruct (p x) eqn:Hx; [discriminate|].
    apply elem_of_cons in Hin as [->|Hin]; auto.
Qed.

(** Splitting a list at an element that satisfies [p], when a prefix or a
    suffix of the list has no such element. *)
Lemma split_after p (a l1 l2 r : list event) x :
  count p a = O -> p x = true -> l1 ++ x :: l2 = a ++ r ->
  exists m, l1 = a ++ m /\ r = m ++ x :: l2.
Proof.
  revert l1. induction a as [|y a IH]; simpl; intros l1 Ha Hx Heq.
  - exists l1. split; [reflexivity|]. symmetry. exact Heq.
  - destruct (p y) eqn:Hy; [discriminate|].
    destruct l1 as [|z l1]; simpl in Heq; inversion Heq; subst.
    + congruence.
    + destruct (IH l1 Ha Hx H1) as (m & -> & ->). exists m. split; reflexivity.
Qed.

Lemma split_before p (l b l1 l2 : list event) x :
  count p b = O -> p x = true -> l1 ++ x :: l2 = l ++ b ->
  exists m, l = l1 ++ x :: m /\ l2 = m ++ b.
Proof.
  revert l1. induction l as [|y l IH]; simpl; intros l1 Hb Hx Heq.
  - exfalso. assert (Hc : count p (l1 ++ x :: l2) = O) by (rewrite Heq; exact Hb).
    rewrite count_app in Hc. simpl in Hc. rewrite Hx in Hc. lia.
  - destruct l1 as [|z l1]; simpl in Heq; inversion Heq; subst.
    + exists l. split; reflexivity.
    + destruct (IH l1 Hb Hx H1) as (m & -> & ->). exists m. split; reflexivity.
Qed.

(** Both sides are the same log up to the bracketing of [++]. *)
Ltac flatten_log :=
  simpl; repeat (rewrite <- app_assoc; simpl); rewrite ?app_nil_r;
  reflexivity.

Ltac trace_is t' :=
  match goal with
  | |- run _ _ _ _ ?t => replace t with t' by flatten_log
  end.

(** ** The program follows the shape *)

Section Adequacy.

Variable w : World.
Variable self : FivetranAPI.

Lemma item_not_cut v key : item v key <> StillPolling.
Proof.
  destruct v; simpl; try discriminate.
  destruct (fields !! key); discriminate.
Qed.

Lemma getitem_eq v key log : getitem v key log = (item v key, log).
Proof.
  destruct v; simpl; try reflexivity.
  destruct (fields !! key); reflexivity.
Qed.

Lemma read_status_not_cut r : read_status r <> StillPolling.
Proof.
  destruct r as [|[code body]]; simpl; [discriminate|].
  destruct (_ && _); [discriminate|].
  destruct body as [v|]; [|discriminate].
  destruct (item v "data") as [d| |] eqn:Hd; simpl;
    [|discriminate|destruct (item_not_cut _ _ Hd)].
  destruct (item d "status") as [s| |] eqn:Hs; simpl;
    [|discriminate|destruct (item_not_cut _ _ Hs)].
  apply item_not_cut.
Qed.

Lemma get_sync_status_eq headers log :
  get_sync_status w self headers log =
  (read_status (get_reply w (count is_get log)),
   log ++ [RequestsGet (status_url self) headers
             (get_reply w (count is_get log))]).
Proof.
  unfold get_sync_status, status_url, requests_get,
    mbind, M_bind, bind, mret, M_ret, ret.
  destruct (get_reply w (count is_get log)) as [|[code body]]; simpl;
    [reflexivity|].
  unfold raise_for_status. simpl.
  destruct (_ && _); [reflexivity|]. simpl.
  unfold response_json. simpl.
  destruct body as [v|]; [|reflexivity]. simpl.
  rewrite getitem_eq.
  destruct (item v "data") as [d| |]; simpl; try reflexivity.
  rewrite getitem_eq.
  destruct (item d "status") as [s| |]; simpl; try reflexivity.
  rewrite getitem_eq.
  destruct (item s "sync_state"); reflexivity.
Qed.

Lemma set_connector_paused_status_eq b log :
  set_connector_paused_status w self b log =
  (fst (mutation self b (patch_reply w (count is_patch log))),
   log ++ set_paused self b (patch_reply w (count is_patch log))
       :: snd (mutation self b (patch_reply w (count is_patch log)))).
Proof.
  unfold set_connector_paused_status, set_paused, requests_patch, mutation,
    mbind, M_bind, bind.
  destruct (patch_reply w (count is_patch log)) as [|[code body]]; simpl;
    [reflexivity|].
  destruct (code =? 200); simpl.
  - unfold print, emit, success_line. rewrite <- app_assoc. reflexivity.
  - unfold print, emit, response_json, error_line, raise, mret, M_ret, ret.
    simpl. destruct body as [v|]; simpl; rewrite <- ?app_assoc; reflexivity.
Qed.

Lemma polling_polls fuel log :
  exists o ext,
    polling w fuel self (get_auth_header self) log = (o, log ++ ext) /\
    polls w self (count is_get log) fuel o ext.
Proof.
  revert log. induction fuel as [|fuel IH]; intros log.
  - exists StillPolling, []. rewrite app_nil_r. split; [reflexivity|constructor].
  - cbn [polling]. unfold mbind, M_bind, bind.
    rewrite get_sync_status_eq.
    destruct (read_status (get_reply w (count is_get log))) as [v|e|] eqn:Hr.
    + unfold print, emit.
      destruct (in_strs v ["syncing"]) eqn:Hs; cbn [negb].
      * unfold time_sleep, emit.
        match goal with
        | |- context [polling w fuel self _ ?l] =>
            destruct (IH l) as (o & ext & Heq & Hp)
        end.
        rewrite Heq. exists o. eexists. split.
        -- rewrite <- !app_assoc. reflexivity.
        -- rewrite !count_app in Hp. simpl in Hp.
           replace (count is_get log + 1 + 0 + 0)%nat
             with (S (count is_get log)) in Hp by lia.
           eapply polls_again; eassumption.
      * exists (Returned v). eexists. split.
        -- unfold mret, M_ret, ret. rewrite <- !app_assoc. reflexivity.
        -- apply polls_end; assumption.
    + exists (Raised e). eexists. split; [reflexivity|].
      apply polls_raise; assumption.
    + exfalso. eapply read_status_not_cut; eassumption.
Qed.

Lemma call_run fuel o tr :
  call w fuel self [] = (o, tr) -> run w self fuel o tr.
Proof.
  unfold call, mbind, M_bind, bind. rewrite get_sync_status_eq.
  change (RequestsGet (status_url self) (get_auth_header self) (get_reply w (count is_get [])))
    with (status_query self (get_reply w 0)).
  simpl.
  destruct (read_status (get_reply w 0)) as [v0|e|] eqn:Hr.
  - assert (Hres :
      (if eq_str v0 "paused" then set_connector_paused_status w self false
       else mret tt) [status_query self (get_reply w 0)] =
      (fst (resume w self v0),
       status_query self (get_reply w 0) :: snd (resume w self v0))).
    { unfold resume. destruct (eq_str v0 "paused").
      - rewrite set_connector_paused_status_eq. reflexivity.
      - reflexivity. }
    rewrite Hres. clear Hres.
    destruct (fst (resume w self v0)) as [[]|e|] eqn:Hres.
    + unfold print, time_sleep, emit.
      match goal with
      | |- context [polling w fuel self _ ?l] =>
          destruct (polling_polls fuel l) as (lo & lext & Heq & Hp);
          rewrite Heq
      end.
      rewrite !count_app in Hp. simpl in Hp.
      assert (Hg : count is_get (snd (resume w self v0)) = O).
      { unfold resume. destruct (eq_str v0 "paused"); [|reflexivity].
        simpl. destruct (patch_reply w 0) as [|[code body]]; simpl;
          [reflexivity|].
        destruct (code =? 200); [reflexivity|].
        destruct body; reflexivity. }
      rewrite Hg in Hp. simpl in Hp.
      destruct lo as [v|e|].
      * rewrite set_connector_paused_status_eq.
        rewrite !count_app. simpl.
        assert (Hl : count is_patch lext = O).
        { clear -Hp. induction Hp; simpl; auto. }
        rewrite Hl.
        replace (count is_patch (snd (resume w self v0)) + 0 + 0 + 0 + 0)%nat
          with (count is_patch (snd (resume w self v0))) by lia.
        destruct (fst (mutation self true _)) as [[]|e|] eqn:Hm.
        -- intros [= <- <-].
           trace_is
             (status_query self (get_reply w 0) :: snd (resume w self v0)
              ++ waiting_line :: Sleep 15 :: lext
              ++ (repausing_line
                  :: set_paused self true
                       (patch_reply w (count is_patch (snd (resume w self v0))))
                  :: snd (mutation self true
                       (patch_reply w (count is_patch (snd (resume w self v0)))))
                  ++ [start_line])).
           eapply run_polls; eauto. apply finishing_done. assumption.
        -- intros [= <- <-].
           trace_is
             (status_query self (get_reply w 0) :: snd (resume w self v0)
              ++ waiting_line :: Sleep 15 :: lext
              ++ (repausing_line
                  :: set_paused self true
                       (patch_reply w (count is_patch (snd (resume w self v0))))
                  :: snd (mutation self true
                       (patch_reply w (count is_patch (snd (resume w self v0))))))).
           eapply run_polls; eauto. apply finishing_pause_raises. assumption.
        -- exfalso. clear -Hm.
           destruct (patch_reply w _) as [|[code body]]; simpl in Hm;
             [discriminate|].
           destruct (code =? 200); [discriminate|].
           destruct body; discriminate.
      * intros [= <- <-].
        trace_is
          (status_query self (get_reply w 0) :: snd (resume w self v0)
           ++ waiting_line :: Sleep 15 :: lext ++ []).
        eapply run_polls; eauto. constructor.
      * intros [= <- <-].
        trace_is
          (status_query self (get_reply w 0) :: snd (resume w self v0)
           ++ waiting_line :: Sleep 15 :: lext ++ []).
        eapply run_polls; eauto. constructor.
    + intros [= <- <-]. eapply run_resume_raises; eauto.
    + exfalso. clear -Hres. unfold resume in Hres.
      destruct (eq_str v0 "paused"); [|discriminate]. simpl in Hres.
      destruct (patch_reply w 0) as [|[code body]]; simpl in Hres;
        [discriminate|].
      destruct (code =? 200); [discriminate|].
      destruct body; discriminate.
  - intros [= <- <-]. apply run_start_raises. assumption.
  - exfalso. eapply read_status_not_cut; eassumption.
Qed.

End Adequacy.

(** ** Comparisons with string literals *)

Lemma eq_str_true v s : eq_str v s = true <-> v = JStr s.
Proof.
  destruct v; simpl; try (split; [discriminate|intros [=]]).
  rewrite bool_decide_eq_true. split; [intros ->; reflexivity|intros [=]; assumption].
Qed.

Lemma in_strs_syncing v : in_strs v ["syncing"] = true <-> v = JStr "syncing".
Proof.
  unfold in_strs. simpl. rewrite orb_false_r. apply eq_str_true.
Qed.

Lemma not_in_strs_syncing v :
  in_strs v ["syncing"] = false <-> v <> JStr "syncing".
Proof.
  rewrite <- in_strs_syncing. destruct (in_strs v ["syncing"]); split;
    congruence.
Qed.

Lemma sync_state_field_item body :
  match sync_state_field body with
  | Some v =>
      and_then (item body "data") (fun data =>
      and_then (item data "status") (fun status =>
      item status "sync_state")) = Returned v
  | None =>
      exists e,
      and_then (item body "data") (fun data =>
      and_then (item data "status") (fun status =>
      item status "sync_state")) = Raised e /\
      status_read_error e = ProtocolError
  end.
Proof.
  destruct body as [| | | | | |b]; simpl; eauto.
  destruct (b !! "data") as [[| | | | | |d]|]; simpl; eauto.
  destruct (d !! "status") as [[| | | | | |s]|]; simpl; eauto.
  destruct (s !! "sync_state"); simpl; eauto.
Qed.

(** ** The polling loop *)

(** C1.  The loop ends at the first status that is not ['syncing'],
    never earlier and never later: when the next [k] status queries are
    answered ['syncing'] and the one after them is answered [v], any
    other value, the loop returns [v] after exactly those [k + 1]
    queries, in order, and nothing else goes over the network. *)
Theorem polling_stops_at_first_terminal w self log k v :
  (forall i, (i < k)%nat ->
     read_status (get_reply w (count is_get log + i)) =
     Returned (JStr "syncing")) ->
  read_status (get_reply w (count is_get log + k)) = Returned v ->
  v <> JStr "syncing" ->
  forall fuel, (k < fuel)%nat ->
  exists ext,
    polling w fuel self (get_auth_header self) log = (Returned v, log ++ ext) /\
    replies ext = map (get_reply w) (seq (count is_get log) (S k)) /\
    count is_network ext = S k.
Proof.
  revert log. induction k as [|k IH]; intros log Hsync Hend Hv fuel Hfuel;
    (destruct fuel as [|fuel]; [lia|]); cbn [polling];
    unfold mbind, M_bind, bind; rewrite get_sync_status_eq.
  - rewrite Nat.add_0_r in Hend. rewrite Hend.
    apply not_in_strs_syncing in Hv. unfold print, emit. rewrite Hv.
    cbn [negb]. eexists. split; [|split].
    + unfold mret, M_ret, ret. rewrite <- !app_assoc. reflexivity.
    + reflexivity.
    + reflexivity.
  - pose proof (Hsync O ltac:(lia)) as H0. rewrite Nat.add_0_r in H0.
    rewrite H0. unfold print, time_sleep, emit.
    replace (in_strs (JStr "syncing") ["syncing"]) with true by reflexivity.
    cbn [negb].
    match goal with
    | |- context [polling w fuel self _ ?l] =>
        destruct (IH l) with (fuel := fuel) as (ext & Heq & Hrep & Hnet)
    end.
    + intros i Hi. rewrite !count_app. simpl.
      replace (count is_get log + 1 + 0 + 0 + i)%nat
        with (count is_get log + S i)%nat by lia.
      apply Hsync. lia.
    + rewrite !count_app. simpl.
      replace (count is_get log + 1 + 0 + 0 + k)%nat
        with (count is_get log + S k)%nat by lia.
      exact Hend.
    + exact Hv.
    + lia.
    + rewrite Heq. eexists. split; [|split].
      * rewrite <- !app_assoc. reflexivity.
      * simpl. rewrite Hrep. rewrite !count_app. simpl.
        replace (count is_get log + 1 + 0 + 0)%nat
          with (S (count is_get log)) by lia.
        reflexivity.
      * simpl. rewrite Hnet. reflexivity.
Qed.

Lemma polling_stops_at_first_terminal_witness :
  exists ext,
    polling (scripted ["syncing"; "syncing"] "rescheduled") 3 hubspot
      (get_auth_header hubspot) [] =
    (Returned (JStr "rescheduled"), [] ++ ext) /\
    replies ext =
    map (get_reply (scripted ["syncing"; "syncing"] "rescheduled")) (seq 0 3) /\
    count is_network ext = 3%nat.
Proof.
  apply (polling_stops_at_first_terminal
           (scripted ["syncing"; "syncing"] "rescheduled") hubspot [] 2
           (JStr "rescheduled")).
  - intros [|[|i]] Hi; [reflexivity|reflexivity|lia].
  - reflexivity.
  - discriminate.
  - lia.
Defined.

(** While every answer is ['syncing'] the loop goes on polling. *)
Lemma polling_goes_on w self log :
  (forall i, read_status (get_reply w (count is_get log + i)) =
             Returned (JStr "syncing")) ->
  forall fuel,
    fst (polling w fuel self (get_auth_header self) log) = StillPolling.
Proof.
  intros Hsync fuel. revert log Hsync.
  induction fuel as [|fuel IH]; intros log Hsync; [reflexivity|].
  cbn [polling]. unfold mbind, M_bind, bind. rewrite get_sync_status_eq.
  pose proof (Hsync O) as H0. rewrite Nat.add_0_r in H0. rewrite H0.
  unfold print, time_sleep, emit.
  replace (in_strs (JStr "syncing") ["syncing"]) with true by reflexivity.
  cbn [negb].
  match goal with
  | |- context [polling w fuel self _ ?l] => specialize (IH l)
  end.
  destruct (polling w fuel self _ _) as [o l'] eqn:Heq.
  simpl in IH. rewrite IH; [reflexivity|].
  intros i. rewrite !count_app. simpl.
  replace (count is_get log + 1 + 0 + 0 + i)%nat
    with (count is_get log + S i)%nat by lia.
  apply Hsync.
Qed.

(** ** The status read *)

(** C8, as stated, fails: a response that is not 2xx and not an error
    code, here 300, is read like a success and its status returned. *)
Lemma get_sync_status_accepts_300 :
  get_sync_status redirecting hubspot (get_auth_header hubspot) [] =
  (Returned (JStr "paused"), [status_query hubspot multiple_choices]).
Proof. vm_compute. reflexivity. Qed.

(** C8, amended.  A status read sends exactly one request.  It raises
    [ConnectionError] when no response arrives and [HTTPError] when the
    response has a code from 400 to 599, both transport errors.  For
    every other code it raises a protocol error when the body is not
    JSON or has no field [data.status.sync_state], and returns the value
    of that field otherwise. *)
Theorem get_sync_status_outcomes w self headers log :
  exists o,
    get_sync_status w self headers log =
    (o, log ++ [RequestsGet (status_url self) headers
                  (get_reply w (count is_get log))]) /\
    (get_reply w (count is_get log) = NetFail ->
       o = Raised ConnectionError /\
       status_read_error ConnectionError = TransportError) /\
    (forall resp,
       get_reply w (count is_get log) = NetResp resp ->
       (if (400 <=? status_code resp) && (status_code resp <? 600)
        then o = Raised (HTTPError (status_code resp)) /\
             status_read_error (HTTPError (status_code resp)) = TransportError
        else
          match resp_json resp with
          | None =>
              o = Raised JSONDecodeError /\
              status_read_error JSONDecodeError = ProtocolError
          | Some body =>
              match sync_state_field body with
              | Some v => o = Returned v
              | None =>
                  exists e, o = Raised e /\ status_read_error e = ProtocolError
              end
          end)).
Proof.
  eexists. split; [apply get_sync_status_eq|]. split.
  - intros ->. split; reflexivity.
  - intros resp ->. simpl.
    destruct ((400 <=? status_code resp) && (status_code resp <? 600));
      [split; reflexivity|].
    destruct (resp_json resp) as [body|]; [|split; reflexivity].
    pose proof (sync_state_field_item body) as H.
    destruct (sync_state_field body); exact H.
Qed.

(** C10.  When the first status read of a run raises, the run raises the
    same exception and its whole trace is that one query: no unpause and
    no pause request is sent. *)
Theorem failed_start_issues_no_mutation w self fuel e :
  fst (get_sync_status w self (get_auth_header self) []) = Raised e ->
  call w fuel self [] = (Raised e, [status_query self (get_reply w 0)]) /\
  count is_patch [status_query self (get_reply w 0)] = O.
Proof.
  intros H. rewrite get_sync_status_eq in H. simpl in H.
  split; [|reflexivity].
  unfold call, mbind, M_bind, bind. rewrite get_sync_status_eq. simpl.
  rewrite H. reflexivity.
Qed.

Lemma failed_start_issues_no_mutation_witness :
  call unreachable 5 hubspot [] =
  (Raised ConnectionError, [status_query hubspot (get_reply unreachable 0)]) /\
  count is_patch [status_query hubspot (get_reply unreachable 0)] = O.
Proof.
  apply (failed_start_issues_no_mutation unreachable hubspot 5 ConnectionError).
  reflexivity.
Defined.

(** ** Construction *)

Lemma CONNECTOR_IDS_table name id :
  CONNECTOR_IDS !! name = Some id <->
  (name, id) ∈ [("sherwood_palsql", "tidy_interval");
                ("fsq_labworks", "intensive_usefulness");
                ("hubspot", "embarkation_cropped");
                ("tulare_soiltestvtaglab", "shucking_fresco");
                ("netsuite_suiteanalytics", "decayed_neat")].
Proof.
  unfold CONNECTOR_IDS.
  rewrite !lookup_insert_Some, lookup_singleton_Some.
  rewrite !elem_of_cons, elem_of_nil.
  split.
  - intros H. repeat (destruct H as [[<- <-]|[_ H]]; [tauto|]).
    destruct H as [<- <-]. tauto.
  - intros H.
    repeat (destruct H as [[= -> ->]|H];
            [repeat ((left; split; reflexivity)
                     || (split; reflexivity)
                     || (right; split; [discriminate|]))|]).
    destruct H.
Qed.

(** C7.  A name outside the mapping makes construction raise [KeyError],
    the configuration error of the design document, after the two
    secrets were fetched and before any request: a run on such a name
    ends there with no network call.  A name inside the mapping gives
    the object whose connector id is the one identifier the mapping
    holds for it. *)
Theorem unknown_name_fails_at_construction w name log :
  match CONNECTOR_IDS !! name with
  | None =>
      init w name log =
      (Raised (KeyError name),
       log ++ [SecretsGet "fivetran_bi_service" "api_key";
               SecretsGet "fivetran_bi_service" "api_secret"]) /\
      (name = widgets_get w "connector_name" ->
       forall fuel,
         main w fuel [] =
         (Raised (KeyError name),
          [WidgetsGet "connector_name";
           SecretsGet "fivetran_bi_service" "api_key";
           SecretsGet "fivetran_bi_service" "api_secret"]) /\
         count is_network
           [WidgetsGet "connector_name";
            SecretsGet "fivetran_bi_service" "api_key";
            SecretsGet "fivetran_bi_service" "api_secret"] = O)
  | Some id =>
      init w name log =
      (Returned {| URL := "https://api.fivetran.com/v1";
                   API_KEY := secrets_get w "fivetran_bi_service" "api_key";
                   API_SECRET := secrets_get w "fivetran_bi_service" "api_secret";
                   CONNECTOR_NAME := id |},
       log ++ [SecretsGet "fivetran_bi_service" "api_key";
               SecretsGet "fivetran_bi_service" "api_secret"]) /\
      forall id', CONNECTOR_IDS !! name = Some id' -> id' = id
  end.
Proof.
  destruct (CONNECTOR_IDS !! name) as [id|] eqn:Hid.
  - split; [|congruence].
    unfold init, dbutils_secrets_get, dict_getitem, mbind, M_bind, bind, emit,
      mret, M_ret, ret.
    rewrite Hid. rewrite <- app_assoc. reflexivity.
  - split.
    + unfold init, dbutils_secrets_get, dict_getitem, mbind, M_bind, bind, emit,
        mret, M_ret, ret, raise.
      rewrite Hid. rewrite <- app_assoc. reflexivity.
    + intros -> fuel. split; [|reflexivity].
      unfold main, init, dbutils_widgets_get, dbutils_secrets_get,
        dict_getitem, mbind, M_bind, bind, emit, mret, M_ret, ret, raise.
      rewrite Hid. reflexivity.
Qed.

(** ** Which events each phase can write *)

Section Phases.

Variable w : World.
Variable self : FivetranAPI.
Variable p : event -> bool.
Hypothesis p_print : forall l, p (Print l) = false.

Lemma mutation_count b r : count p (snd (mutation self b r)) = O.
Proof.
  destruct r as [|[code body]]; simpl; [reflexivity|].
  destruct (code =? 200); simpl.
  - unfold success_line. rewrite p_print. reflexivity.
  - destruct body; simpl; unfold error_line; rewrite !p_print; reflexivity.
Qed.

Lemma resume_count v0 :
  (forall r, p (set_paused self false r) = false) ->
  count p (snd (resume w self v0)) = O.
Proof.
  intros Hp. unfold resume. destruct (eq_str v0 "paused"); [|reflexivity].
  simpl. rewrite Hp. apply mutation_count.
Qed.

Lemma finishing_count n lo o fext :
  (forall r, p (set_paused self true r) = false) ->
  finishing w self n lo o fext -> count p fext = O.
Proof.
  intros Hp [|e|v e H|v H]; simpl; try reflexivity;
    unfold repausing_line; rewrite p_print, Hp, ?count_app, mutation_count;
    [reflexivity|].
  simpl. unfold start_line. rewrite p_print. reflexivity.
Qed.

Lemma polls_count n fuel o ext :
  (forall r, p (status_query self r) = false) ->
  p (Sleep 30) = false ->
  polls w self n fuel o ext -> count p ext = O.
Proof.
  intros Hg Hs H. induction H; simpl; unfold status_line, ended_line;
    rewrite ?Hg, ?p_print, ?Hs; auto.
Qed.

End Phases.

Lemma resume_paused w self :
  resume w self (JStr "paused") =
  (fst (mutation self false (patch_reply w 0)),
   set_paused self false (patch_reply w 0)
   :: snd (mutation self false (patch_reply w 0))).
Proof. reflexivity. Qed.

Lemma resume_other w self v0 :
  v0 <> JStr "paused" -> resume w self v0 = (Returned tt, []).
Proof.
  intros H. unfold resume. destruct (eq_str v0 "paused") eqn:He; [|reflexivity].
  apply eq_str_true in He. contradiction.
Qed.

(** ** Resuming *)

(** C3.  When the first status query of a run is answered ['paused'],
    the trace starts with that query followed by the unpause request,
    and no unpause request comes later: exactly one, before the first
    poll.  For every other answer the run sends no unpause request. *)
Theorem unpause_iff_initially_paused w self fuel o tr :
  call w fuel self [] = (o, tr) ->
  (read_status (get_reply w 0) = Returned (JStr "paused") ->
   exists rest,
     tr = status_query self (get_reply w 0)
          :: set_paused self false (patch_reply w 0) :: rest /\
     count is_unpause rest = O /\
     count is_unpause tr = 1%nat) /\
  (read_status (get_reply w 0) <> Returned (JStr "paused") ->
   count is_unpause tr = O).
Proof.
  intros H. apply call_run in H.
  destruct H as [e Hr|v0 e Hr Hres|v0 lo lext o fext Hr Hres Hp Hf].
  - split; [congruence|reflexivity].
  - split.
    + intros H0. rewrite Hr in H0. injection H0 as ->.
      rewrite resume_paused. simpl. eexists. split; [reflexivity|].
      rewrite mutation_count by reflexivity. split; reflexivity.
    + intros H0. rewrite resume_other by congruence. reflexivity.
  - assert (Hl : count is_unpause lext = O)
      by (eapply polls_count; eauto; reflexivity).
    assert (Hfx : count is_unpause fext = O)
      by (eapply finishing_count; eauto; reflexivity).
    split.
    + intros H0. rewrite Hr in H0. injection H0 as ->.
      rewrite resume_paused. simpl. eexists. split; [reflexivity|].
      rewrite !count_app. simpl. rewrite !count_app.
      rewrite mutation_count by reflexivity. rewrite Hl, Hfx.
      split; reflexivity.
    + intros H0. rewrite resume_other by congruence. simpl.
      rewrite count_app, Hl, Hfx. reflexivity.
Qed.

Lemma unpause_iff_initially_paused_witness :
  (call paused_world 2 hubspot [] = (Returned tt, paused_trace) /\
   exists rest,
     paused_trace =
     status_query hubspot (get_reply paused_world 0)
     :: set_paused hubspot false (patch_reply paused_world 0) :: rest /\
     count is_unpause rest = O /\
     count is_unpause paused_trace = 1%nat) /\
  (call rescheduled_world 1 hubspot [] = (Returned tt, rescheduled_trace) /\
   count is_unpause rescheduled_trace = O).
Proof.
  split; (split; [reflexivity|]).
  - apply (unpause_iff_initially_paused paused_world hubspot 2 (Returned tt)
             paused_trace eq_refl).
    reflexivity.
  - apply (unpause_iff_initially_paused rescheduled_world hubspot 1
             (Returned tt) rescheduled_trace eq_refl).
    discriminate.
Defined.

Example paused_scenario :
  call paused_world 2 hubspot [] = (Returned tt, paused_trace).
Proof. reflexivity. Qed.

Example rescheduled_scenario :
  call rescheduled_world 1 hubspot [] = (Returned tt, rescheduled_trace).
Proof. reflexivity. Qed.

(** ** Where a status query sits in the loop *)

Lemma count_split_pos p (a b : list event) x :
  p x = true -> (1 <= count p (a ++ x :: b))%nat.
Proof. intros Hx. rewrite count_app. simpl. rewrite Hx. lia. Qed.

(** What follows a status query of the loop is decided by its answer. *)
Lemma polls_split w self n fuel lo ext a u h r b :
  polls w self n fuel lo ext ->
  ext = a ++ RequestsGet u h r :: b ->
  match read_status r with
  | Returned v =>
      if in_strs v ["syncing"]
      then exists b', b = status_line v :: Sleep 30 :: b'
      else lo = Returned v /\ b = [status_line v; ended_line v]
  | Raised e => lo = Raised e /\ b = []
  | StillPolling => False
  end.
Proof.
  intros H. revert a.
  induction H as [n|n fuel v o ext Hr Hs Hp IH|n fuel v Hr Hs|n fuel e Hr];
    intros a Heq.
  - destruct a; discriminate.
  - destruct a as [|x a]; simpl in Heq.
    + injection Heq as _ _ <- <-. rewrite Hr, Hs. eauto.
    + injection Heq as _ Heq.
      destruct a as [|y a]; simpl in Heq; [discriminate|].
      injection Heq as _ Heq.
      destruct a as [|z a]; simpl in Heq; [discriminate|].
      injection Heq as _ Heq. eapply IH; eassumption.
  - destruct a as [|x a]; simpl in Heq.
    + injection Heq as _ _ <- <-. rewrite Hr, Hs. auto.
    + injection Heq as _ Heq.
      destruct a as [|y a]; simpl in Heq; [discriminate|].
      injection Heq as _ Heq.
      destruct a as [|z a]; simpl in Heq; [discriminate|].
      destruct a; discriminate.
  - destruct a as [|x a]; simpl in Heq.
    + injection Heq as _ _ <- <-. rewrite Hr. auto.
    + injection Heq as _ Heq. destruct a; discriminate.
Qed.

(** ** Failures while polling *)

(** C5.  When a status read of the polling loop (any query after the
    first of the run) raises, the run ends at once with that exception:
    the failed query is the last event of the trace, and the trace holds
    no pause request. *)
Theorem failed_poll_aborts_without_pause w self fuel o tr :
  call w fuel self [] = (o, tr) ->
  forall a u h r b e,
    tr = a ++ RequestsGet u h r :: b ->
    (1 <= count is_get a)%nat ->
    read_status r = Raised e ->
    o = Raised e /\ b = [] /\ count is_pause tr = O.
Proof.
  intros H a u h r b e Htr Ha Hr. apply call_run in H.
  destruct H as [e0 Hr0|v0 e0 Hr0 Hres|v0 lo lext o fext Hr0 Hres Hp Hf].
  - destruct a as [|x a]; simpl in *; [lia|].
    injection Htr as _ Htr. destruct a; discriminate.
  - destruct a as [|x a]; simpl in *; [lia|].
    injection Htr as _ Htr.
    pose proof (count_split_pos is_get a b (RequestsGet u h r) eq_refl) as Hc.
    rewrite <- Htr in Hc.
    rewrite (resume_count w self is_get) in Hc by reflexivity. lia.
  - destruct a as [|x a]; simpl in *; [lia|].
    injection Htr as _ Htr. clear Ha.
    assert (Htr' : a ++ RequestsGet u h r :: b =
                   (snd (resume w self v0) ++ [waiting_line; Sleep 15])
                   ++ lext ++ fext)
      by (rewrite <- Htr; flatten_log).
    clear Htr. rename Htr' into Htr.
    apply (split_after is_get) in Htr as (m & -> & Htr);
      [|rewrite count_app, (resume_count w self is_get) by reflexivity;
        reflexivity|reflexivity].
    symmetry in Htr.
    apply (split_before is_get) in Htr as (m' & -> & ->);
      [|eapply finishing_count; eauto; reflexivity|reflexivity].
    pose proof (polls_split _ _ _ _ _ _ _ _ _ _ _ Hp eq_refl) as Hs.
    rewrite Hr in Hs. destruct Hs as [-> ->].
    inversion Hf; subst. split; [reflexivity|]. split; [reflexivity|].
    rewrite !count_app. simpl. rewrite !count_app. simpl.
    rewrite (resume_count w self is_pause) by reflexivity.
    assert (Hl : count is_pause m = O).
    { pose proof (polls_count w self is_pause ltac:(reflexivity) _ _ _ _
                    ltac:(reflexivity) ltac:(reflexivity) Hp) as Hl.
      rewrite count_app in Hl. lia. }
    rewrite Hl. reflexivity.
Qed.

Lemma failed_poll_aborts_without_pause_witness :
  call dropping_world 5 hubspot [] =
  (Raised ConnectionError, dropping_prefix ++ [status_query hubspot NetFail]) /\
  (Raised ConnectionError = Raised ConnectionError :> outcome unit) /\
  [] = [] :> list event /\
  count is_pause (dropping_prefix ++ [status_query hubspot NetFail]) = O.
Proof.
  split; [reflexivity|].
  apply (failed_poll_aborts_without_pause dropping_world hubspot 5
           (Raised ConnectionError)
           (dropping_prefix ++ [status_query hubspot NetFail])
           eq_refl dropping_prefix (status_url hubspot)
           (get_auth_header hubspot) NetFail [] ConnectionError).
  - reflexivity.
  - simpl. lia.
  - reflexivity.
Defined.

(** ** The settle delay *)

(** C9.  In every run, between an unpause request and any later status
    query the trace holds the 15-second sleep. *)
Theorem settle_delay_after_unpause w self fuel o tr :
  call w fuel self [] = (o, tr) ->
  forall a u mid g b,
    tr = a ++ u :: mid ++ g :: b ->
    is_unpause u = true ->
    is_get g = true ->
    Sleep 15 ∈ mid.
Proof.
  intros H a u mid g b Htr Hu Hg. apply call_run in H.
  assert (Hno : count is_unpause tr = O -> False).
  { intros Hc. pose proof (count_split_pos is_unpause a (mid ++ g :: b) u Hu).
    rewrite <- Htr in *. lia. }
  destruct H as [e0 Hr0|v0 e0 Hr0 Hres|v0 lo lext o fext Hr0 Hres Hp Hf].
  - exfalso. apply Hno. reflexivity.
  - exfalso. destruct (eq_str v0 "paused") eqn:Hv.
    + apply eq_str_true in Hv as ->. rewrite resume_paused in Htr.
      simpl in Htr. destruct a as [|x a]; simpl in Htr.
      * injection Htr as <- _. discriminate.
      * injection Htr as _ Htr.
        assert (Hc : (1 <= count is_get
                       (set_paused self false (patch_reply w 0)
                        :: snd (mutation self false (patch_reply w 0))))%nat).
        { rewrite Htr.
          replace (a ++ u :: mid ++ g :: b) with ((a ++ u :: mid) ++ g :: b)
            by (rewrite <- app_assoc; reflexivity).
          apply count_split_pos. exact Hg. }
        simpl in Hc. rewrite mutation_count in Hc by reflexivity. lia.
    + apply Hno. unfold resume. rewrite Hv. reflexivity.
  - assert (Hl : count is_unpause lext = O)
      by (eapply polls_count; eauto; reflexivity).
    assert (Hfx : count is_unpause fext = O)
      by (eapply finishing_count; eauto; reflexivity).
    destruct (eq_str v0 "paused") eqn:Hv.
    + apply eq_str_true in Hv as ->. rewrite resume_paused in Htr.
      simpl in Htr. destruct a as [|x a]; simpl in Htr.
      * injection Htr as <- _. discriminate.
      * injection Htr as _ Htr.
        assert (Htr' : a ++ u :: mid ++ g :: b =
                       [set_paused self false (patch_reply w 0)]
                       ++ (snd (mutation self false (patch_reply w 0))
                           ++ waiting_line :: Sleep 15 :: lext ++ fext))
          by (rewrite <- Htr; reflexivity).
        clear Htr.
        apply (split_before is_unpause) in Htr' as (m & Hm & Hrest);
          [|rewrite !count_app; simpl; rewrite count_app, Hl, Hfx,
              mutation_count by reflexivity; reflexivity|exact Hu].
        destruct a as [|y a]; simpl in Hm.
        -- injection Hm as _ <-. simpl in Hrest.
           assert (Hrest' : mid ++ g :: b =
                     (snd (mutation self false (patch_reply w 0))
                      ++ [waiting_line; Sleep 15]) ++ lext ++ fext)
             by (rewrite Hrest; flatten_log).
           apply (split_after is_get) in Hrest' as (m' & -> & _);
             [|rewrite count_app, mutation_count by reflexivity; reflexivity
              |exact Hg].
           apply elem_of_app. left. apply elem_of_app. right.
           apply elem_of_cons. right. apply elem_of_cons. left. reflexivity.
        -- injection Hm as _ Hm. destruct a; discriminate.
    + exfalso. apply Hno. unfold resume. rewrite Hv. simpl.
      rewrite count_app, Hl, Hfx. reflexivity.
Qed.

Lemma settle_delay_after_unpause_witness :
  call paused_world 2 hubspot [] = (Returned tt, paused_trace) /\
  Sleep 15 ∈ [success_line hubspot false; waiting_line; Sleep 15].
Proof.
  split; [reflexivity|].
  apply (settle_delay_after_unpause paused_world hubspot 2 (Returned tt)
           paused_trace eq_refl
           [status_query hubspot (ok_status "paused")]
           (set_paused hubspot false ok_patch)
           [success_line hubspot false; waiting_line; Sleep 15]
           (status_query hubspot (ok_status "syncing"))
           [status_line (JStr "syncing");
            Sleep 30;
            status_query hubspot (ok_status "rescheduled");
            status_line (JStr "rescheduled");
            ended_line (JStr "rescheduled");
            repausing_line;
            set_paused hubspot true ok_patch;
            success_line hubspot true;
            start_line]).
  - reflexivity.
  - reflexivity.
  - reflexivity.
Defined.

(** ** Finishing *)

Lemma polls_returned w self n fuel v ext :
  polls w self n fuel (Returned v) ext ->
  exists pre r,
    ext = pre ++ [status_query self r; status_line v; ended_line v] /\
    read_status r = Returned v /\ v <> JStr "syncing".
Proof.
  intros H. remember (Returned v) as lo eqn:Hlo.
  induction H as [n|n fuel v' o ext Hr Hs Hp IH|n fuel v' Hr Hs|n fuel e Hr];
    try discriminate.
  - destruct (IH Hlo) as (pre & r & -> & Hrr & Hv).
    eexists (_ :: _ :: _ :: pre), r. split; [reflexivity|]. split; assumption.
  - injection Hlo as ->. exists [], (get_reply w n).
    split; [reflexivity|]. split; [assumption|].
    apply not_in_strs_syncing. assumption.
Qed.

(** C2.  A run that completes has sent exactly one pause request.  In
    every run, whatever the first status was, a pause request is the
    first of its kind, no request follows it, and it comes after a poll
    of the loop was answered with a status other than ['syncing'], with
    no request between that poll and the pause. *)
Theorem pause_once_after_terminal_status w self fuel o tr :
  call w fuel self [] = (o, tr) ->
  (o = Returned tt -> count is_pause tr = 1%nat) /\
  (forall a p b,
     tr = a ++ p :: b -> is_pause p = true ->
     count is_pause a = O /\ count is_network b = O /\
     exists a1 r v a2,
       a = a1 ++ status_query self r :: a2 /\
       (1 <= count is_get a1)%nat /\
       read_status r = Returned v /\ v <> JStr "syncing" /\
       count is_network a2 = O).
Proof.
  intros H. apply call_run in H.
  assert (Hno : count is_pause tr = O ->
                forall a p b, tr = a ++ p :: b -> is_pause p = true -> False).
  { intros Hc a p b Htr Hp. pose proof (count_split_pos is_pause a b p Hp).
    rewrite <- Htr in *. lia. }
  destruct H as [e0 Hr0|v0 e0 Hr0 Hres|v0 lo lext o fext Hr0 Hres Hp Hf].
  - split; [discriminate|]. intros a p b Htr Hpp. exfalso.
    eapply Hno; eauto.
  - split; [discriminate|]. intros a p b Htr Hpp. exfalso.
    eapply Hno; eauto. simpl.
    apply (resume_count w self is_pause); reflexivity.
  - assert (Hl : forall q, (forall l, q (Print l) = false) ->
                           (forall r, q (status_query self r) = false) ->
                           q (Sleep 30) = false -> count q lext = O).
    { intros q Hq1 Hq2 Hq3. eapply polls_count; eauto. }
    assert (HR : count is_pause (snd (resume w self v0)) = O)
      by (apply resume_count; reflexivity).
    destruct Hf as [|e|v e Hm|v Hm].
    + split; [discriminate|]. intros a p b Htr Hpp. exfalso.
      eapply Hno; eauto. simpl. rewrite !count_app. simpl.
      rewrite HR, !count_app, Hl by reflexivity. reflexivity.
    + split; [discriminate|]. intros a p b Htr Hpp. exfalso.
      eapply Hno; eauto. simpl. rewrite !count_app. simpl.
      rewrite HR, !count_app, Hl by reflexivity. reflexivity.
    + split; [discriminate|]. intros a p b Htr Hpp.
      set (n := count is_patch (snd (resume w self v0))) in *.
      assert (Htr' : a ++ p :: b =
                (status_query self (get_reply w 0) :: snd (resume w self v0)
                 ++ waiting_line :: Sleep 15 :: lext ++ [repausing_line])
                ++ [set_paused self true (patch_reply w n)]
                ++ snd (mutation self true (patch_reply w n)))
        by (rewrite <- Htr; flatten_log).
      clear Htr.
      apply (split_after is_pause) in Htr' as (m & -> & Htr);
        [|simpl; rewrite !count_app; simpl;
          rewrite HR, !count_app, Hl by reflexivity; reflexivity|exact Hpp].
      symmetry in Htr.
      apply (split_before is_pause) in Htr as (m' & Hm' & ->);
        [|apply mutation_count; reflexivity|exact Hpp].
      destruct m as [|y m]; simpl in Hm';
        [|injection Hm' as _ Hm'; destruct m; discriminate].
      injection Hm' as <- <-. rewrite app_nil_r. simpl.
      split; [rewrite !count_app; simpl;
              rewrite HR, !count_app, Hl by reflexivity; reflexivity|].
      split; [apply mutation_count; reflexivity|].
      destruct (polls_returned _ _ _ _ _ _ Hp) as (pre & r & -> & Hr & Hv).
      exists (status_query self (get_reply w 0) :: snd (resume w self v0)
              ++ waiting_line :: Sleep 15 :: pre), r, v,
        [status_line v; ended_line v; repausing_line].
      split; [flatten_log|]. split; [simpl; lia|].
      split; [assumption|]. split; [assumption|reflexivity].
    + set (n := count is_patch (snd (resume w self v0))) in *.
      assert (Hcount : count is_pause
                (status_query self (get_reply w 0) :: snd (resume w self v0)
                 ++ waiting_line :: Sleep 15 :: lext ++ [repausing_line]) = O).
      { simpl. rewrite !count_app. simpl.
        rewrite HR, !count_app, Hl by reflexivity. reflexivity. }
      assert (Hshape :
                status_query self (get_reply w 0) :: snd (resume w self v0)
                ++ waiting_line :: Sleep 15 :: lext
                ++ repausing_line :: set_paused self true (patch_reply w n)
                   :: snd (mutation self true (patch_reply w n)) ++ [start_line]
                = (status_query self (get_reply w 0) :: snd (resume w self v0)
                   ++ waiting_line :: Sleep 15 :: lext ++ [repausing_line])
                  ++ [set_paused self true (patch_reply w n)]
                  ++ (snd (mutation self true (patch_reply w n)) ++ [start_line]))
        by flatten_log.
      assert (Htail : forall q, (forall l, q (Print l) = false) ->
                count q (snd (mutation self true (patch_reply w n))
                         ++ [start_line]) = O).
      { intros q Hq. rewrite count_app, mutation_count by exact Hq.
        simpl. unfold start_line. rewrite Hq. reflexivity. }
      split.
      * intros _. rewrite Hshape, count_app, Hcount, count_app, Htail
          by reflexivity. reflexivity.
      * intros a p b Htr Hpp. rewrite Hshape in Htr. symmetry in Htr.
        apply (split_after is_pause) in Htr as (m & -> & Htr);
          [|exact Hcount|exact Hpp].
        symmetry in Htr.
        apply (split_before is_pause) in Htr as (m' & Hm' & ->);
          [|apply Htail; reflexivity|exact Hpp].
        destruct m as [|y m]; simpl in Hm';
          [|injection Hm' as _ Hm'; destruct m; discriminate].
        injection Hm' as <- <-. rewrite app_nil_r.
        split; [exact Hcount|].
        split; [apply Htail; reflexivity|].
        destruct (polls_returned _ _ _ _ _ _ Hp) as (pre & r & -> & Hr & Hv).
        exists (status_query self (get_reply w 0) :: snd (resume w self v0)
                ++ waiting_line :: Sleep 15 :: pre), r, v,
          [status_line v; ended_line v; repausing_line].
        split; [flatten_log|]. split; [simpl; lia|].
        split; [assumption|]. split; [assumption|reflexivity].
Qed.

Lemma pause_once_after_terminal_status_witness :
  call paused_world 2 hubspot [] = (Returned tt, paused_trace) /\
  count is_pause paused_trace = 1%nat /\
  count is_pause (take 12 paused_trace) = O /\
  count is_network (drop 13 paused_trace) = O /\
  exists a1 r v a2,
    take 12 paused_trace = a1 ++ status_query hubspot r :: a2 /\
    (1 <= count is_get a1)%nat /\
    read_status r = Returned v /\ v <> JStr "syncing" /\
    count is_network a2 = O.
Proof.
  split; [reflexivity|].
  destruct (pause_once_after_terminal_status paused_world hubspot 2
              (Returned tt) paused_trace eq_refl) as [Hone Hpos].
  split; [apply Hone; reflexivity|].
  apply (Hpos (take 12 paused_trace) (set_paused hubspot true ok_patch)
           (drop 13 paused_trace)); reflexivity.
Defined.

(** C4, as stated, fails: the connector is found rescheduled, no unpause
    is sent, and the run still sleeps 15 seconds between the first
    status query and the first poll. *)
Lemma settle_delay_without_unpause :
  read_status (get_reply rescheduled_world 0) = Returned (JStr "rescheduled") /\
  call rescheduled_world 1 hubspot [] = (Returned tt, rescheduled_trace) /\
  rescheduled_trace !! 0%nat = Some (status_query hubspot (ok_status "rescheduled")) /\
  rescheduled_trace !! 2%nat = Some (Sleep 15) /\
  rescheduled_trace !! 3%nat = Some (status_query hubspot (ok_status "rescheduled")).
Proof. repeat split; reflexivity. Qed.

Lemma polls_first w self n fuel lo ext :
  polls w self n (S fuel) lo ext ->
  exists ext', ext = status_query self (get_reply w n) :: ext'.
Proof. intros H. inversion H; subst; eauto. Qed.

(** C4, amended.  In a run whose first status is not ['paused'] no
    unpause request is sent; the waiting line and the 15-second sleep
    still follow the first query, and the first poll comes right after
    them; once a poll is answered with a status other than ['syncing'],
    the next request is the pause request. *)
Theorem not_paused_run_settles_then_polls w self fuel o tr v0 :
  call w fuel self [] = (o, tr) ->
  read_status (get_reply w 0) = Returned v0 ->
  v0 <> JStr "paused" ->
  exists rest,
    tr = status_query self (get_reply w 0) :: waiting_line :: Sleep 15 :: rest /\
    count is_unpause tr = O /\
    ((0 < fuel)%nat ->
     exists rest', rest = status_query self (get_reply w 1) :: rest') /\
    (forall a u h r v b,
       rest = a ++ RequestsGet u h r :: b ->
       read_status r = Returned v -> v <> JStr "syncing" ->
       exists c,
         b = status_line v :: ended_line v :: repausing_line
             :: set_paused self true (patch_reply w 0) :: c).
Proof.
  intros H Hr Hv. apply call_run in H.
  destruct H as [e0 Hr0|v1 e0 Hr0 Hres|v1 lo lext o fext Hr0 Hres Hp Hf];
    try congruence.
  - rewrite Hr in Hr0. injection Hr0 as <-.
    rewrite resume_other in Hres by assumption. discriminate.
  - rewrite Hr in Hr0. injection Hr0 as <-.
    rewrite resume_other in * by assumption. simpl in *.
    eexists. split; [reflexivity|].
    assert (Hl : count is_unpause lext = O)
      by (eapply polls_count; eauto; reflexivity).
    assert (Hfx : count is_unpause fext = O)
      by (eapply finishing_count; eauto; reflexivity).
    split; [rewrite count_app, Hl, Hfx; reflexivity|]. split.
    + intros Hfuel. destruct fuel as [|fuel]; [lia|].
      destruct (polls_first _ _ _ _ _ _ Hp) as (ext' & ->).
      eexists. reflexivity.
    + intros a u h r v b Heq Hrv Hvv. symmetry in Heq.
      apply (split_before is_get) in Heq as (m & -> & ->);
        [|eapply finishing_count; eauto; reflexivity|reflexivity].
      pose proof (polls_split _ _ _ _ _ _ _ _ _ _ _ Hp eq_refl) as Hs.
      rewrite Hrv in Hs. apply not_in_strs_syncing in Hvv. rewrite Hvv in Hs.
      destruct Hs as [-> ->]. inversion Hf; subst; simpl; eauto.
Qed.

Lemma not_paused_run_settles_then_polls_witness :
  call rescheduled_world 1 hubspot [] = (Returned tt, rescheduled_trace) /\
  exists rest,
    rescheduled_trace =
    status_query hubspot (get_reply rescheduled_world 0)
    :: waiting_line :: Sleep 15 :: rest /\
    count is_unpause rescheduled_trace = O /\
    ((0 < 1)%nat ->
     exists rest',
       rest = status_query hubspot (get_reply rescheduled_world 1) :: rest') /\
    (forall a u h r v b,
       rest = a ++ RequestsGet u h r :: b ->
       read_status r = Returned v -> v <> JStr "syncing" ->
       exists c,
         b = status_line v :: ended_line v :: repausing_line
             :: set_paused hubspot true (patch_reply rescheduled_world 0) :: c).
Proof.
  split; [reflexivity|].
  apply (not_paused_run_settles_then_polls rescheduled_world hubspot 1
           (Returned tt) rescheduled_trace (JStr "rescheduled") eq_refl).
  - reflexivity.
  - discriminate.
Defined.

(** ** Mutations *)

(** C6, as stated, fails: a [201] answer is 2xx, yet the mutation does
    not report success: it prints the error line and the body. *)
Lemma mutation_reports_201_as_error :
  set_connector_paused_status created_world hubspot true [] =
  (Returned tt,
   [set_paused hubspot true created; error_line 201; Print [Val (JDict ∅)]]).
Proof. reflexivity. Qed.

(** A [204] answer without a body makes the mutation raise. *)
Lemma mutation_raises_on_204 :
  set_connector_paused_status no_content_world hubspot true [] =
  (Raised JSONDecodeError,
   [set_paused hubspot true no_content; error_line 204]).
Proof. reflexivity. Qed.

Lemma mutation_answered self b resp :
  status_code resp = 200 \/ resp_json resp <> None ->
  fst (mutation self b (NetResp resp)) = Returned tt.
Proof.
  intros H. simpl. destruct (status_code resp =? 200) eqn:Hc; [reflexivity|].
  destruct (resp_json resp); [reflexivity|].
  destruct H as [H|H]; [|contradiction].
  rewrite H in Hc. discriminate.
Qed.

(** C6, amended.  A mutation calls [requests.patch] exactly once and
    makes no other request, whatever the reply.  One whose request is
    answered with status 200 prints the success line and returns.  One
    answered with any other status and a JSON body prints the status
    code and the body and returns as well; nothing is handed back to the
    caller.  In a run, a pause request answered in either way is
    followed by the return of the run; an unpause request answered in
    either way is followed by the lines of the mutation, the waiting
    line, the 15-second sleep and then, as the next request, the first
    poll of the loop. *)
Theorem mutation_reports_and_run_goes_on w self :
  (forall b log,
     exists o lines,
       set_connector_paused_status w self b log =
       (o, log ++ set_paused self b (patch_reply w (count is_patch log))
               :: lines) /\
       count is_network lines = O) /\
  (forall b log resp,
     patch_reply w (count is_patch log) = NetResp resp ->
     (status_code resp = 200 ->
      set_connector_paused_status w self b log =
      (Returned tt,
       log ++ [set_paused self b (NetResp resp); success_line self b])) /\
     (forall v,
        status_code resp <> 200 -> resp_json resp = Some v ->
        set_connector_paused_status w self b log =
        (Returned tt,
         log ++ [set_paused self b (NetResp resp);
                 error_line (status_code resp); Print [Val v]]))) /\
  (forall fuel o tr,
     call w fuel self [] = (o, tr) ->
     forall a b resp c,
       tr = a ++ set_paused self b (NetResp resp) :: c ->
       status_code resp = 200 \/ resp_json resp <> None ->
       if b then o = Returned tt
       else exists lines c2,
              c = lines ++ waiting_line :: Sleep 15 :: c2 /\
              count is_network lines = O /\
              ((0 < fuel)%nat ->
               exists c3, c2 = status_query self (get_reply w 1) :: c3)).
Proof.
  split; [|split].
  - intros b log. eexists _, _.
    split; [apply set_connector_paused_status_eq|].
    apply mutation_count. reflexivity.
  - intros b log resp Hrep. rewrite set_connector_paused_status_eq, Hrep.
    split.
    + intros Hc. simpl. rewrite Hc. reflexivity.
    + intros v Hc Hv. simpl.
      destruct (status_code resp =? 200) eqn:Hc'; [apply Z.eqb_eq in Hc'; lia|].
      rewrite Hv. reflexivity.
  - intros fuel o tr H a b resp c Htr Hans. apply call_run in H.
    destruct H as [e0 Hr0|v0 e0 Hr0 Hres|v0 lo lext o fext Hr0 Hres Hp Hf].
    + exfalso. destruct a as [|x a]; simpl in Htr; [discriminate|].
      injection Htr as _ Htr. destruct a; discriminate.
    + exfalso. destruct a as [|x a]; simpl in Htr; [discriminate|].
      injection Htr as _ Htr. unfold resume in *.
      destruct (eq_str v0 "paused"); simpl in *; [|destruct a; discriminate].
      destruct a as [|y a]; simpl in Htr.
      * injection Htr as Hb Hrep _. unfold set_paused in Hb.
        rewrite Hrep, mutation_answered in Hres by assumption. discriminate.
      * injection Htr as _ Htr.
        pose proof (count_split_pos is_patch a c
                      (set_paused self b (NetResp resp)) eq_refl) as Hc.
        rewrite <- Htr, mutation_count in Hc by reflexivity. lia.
    + assert (Hl : forall q, (forall l, q (Print l) = false) ->
                             (forall r, q (status_query self r) = false) ->
                             q (Sleep 30) = false -> count q lext = O).
      { intros q Hq1 Hq2 Hq3. eapply polls_count; eauto. }
      destruct b.
      * (* a pause request: it is the one of the finishing step *)
        assert (Htr' : a ++ set_paused self true (NetResp resp) :: c =
                  (status_query self (get_reply w 0) :: snd (resume w self v0)
                   ++ waiting_line :: Sleep 15 :: lext) ++ fext)
          by (rewrite <- Htr; flatten_log).
        clear Htr.
        apply (split_after is_pause) in Htr' as (m & -> & Htr);
          [|simpl; rewrite !count_app; simpl;
            rewrite (resume_count w self is_pause), Hl by reflexivity;
            reflexivity|reflexivity].
        destruct Hf as [|e|v e Hm|v Hm]; try reflexivity;
          try (destruct m; discriminate).
        exfalso.
        destruct m as [|y m]; simpl in Htr; [discriminate|].
        injection Htr as _ Htr.
        destruct m as [|z m]; simpl in Htr.
        -- injection Htr as Hrep _.
           rewrite Hrep, mutation_answered in Hm by assumption. discriminate.
        -- injection Htr as _ Htr.
           pose proof (count_split_pos is_patch m c
                         (set_paused self true (NetResp resp)) eq_refl) as Hc.
           rewrite <- Htr, mutation_count in Hc by reflexivity. lia.
      * (* an unpause request: it is the one of the resume step *)
        assert (Htr' : a ++ set_paused self false (NetResp resp) :: c =
                  (status_query self (get_reply w 0) :: snd (resume w self v0))
                  ++ (waiting_line :: Sleep 15 :: lext ++ fext))
          by (rewrite <- Htr; flatten_log).
        clear Htr.
        apply (split_before is_unpause) in Htr' as (m & Hm & ->);
          [|simpl; rewrite count_app, Hl,
              (finishing_count w self is_unpause ltac:(reflexivity) _ _ _ _
                 ltac:(reflexivity) Hf) by reflexivity;
            reflexivity|reflexivity].
        destruct a as [|x a]; simpl in Hm; [discriminate|].
        injection Hm as _ Hm. unfold resume in Hm.
        destruct (eq_str v0 "paused"); simpl in Hm; [|destruct a; discriminate].
        destruct a as [|y a]; simpl in Hm.
        -- injection Hm as _ Hm. exists m. eexists.
           split; [reflexivity|]. split.
           ++ rewrite <- Hm. apply mutation_count. reflexivity.
           ++ intros Hfuel. destruct fuel as [|fuel]; [lia|].
              destruct (polls_first _ _ _ _ _ _ Hp) as (ext' & ->).
              eexists. reflexivity.
        -- exfalso. injection Hm as _ Hm.
           pose proof (count_split_pos is_patch a m
                         (set_paused self false (NetResp resp)) eq_refl) as Hc.
           rewrite <- Hm, mutation_count in Hc by reflexivity. lia.
Qed.

(** A rejected mutation does not stop the run; a mutation answered
    without a JSON body does. *)
Example forbidden_scenario :
  call forbidden_world 1 hubspot [] =
  (Returned tt,
   [status_query hubspot (ok_status "paused");
    set_paused hubspot false forbidden;
    error_line 403;
    Print [Val (JDict {[ "code" := JStr "Forbidden" ]})];
    waiting_line;
    Sleep 15;
    status_query hubspot (ok_status "rescheduled");
    status_line (JStr "rescheduled");
    ended_line (JStr "rescheduled");
    repausing_line;
    set_paused hubspot true forbidden;
    error_line 403;
    Print [Val (JDict {[ "code" := JStr "Forbidden" ]})];
    start_line]).
Proof. reflexivity. Qed.

Example no_content_scenario :
  call no_content_world 1 hubspot [] =
  (Raised JSONDecodeError,
   [status_query hubspot (ok_status "rescheduled");
    waiting_line;
    Sleep 15;
    status_query hubspot (ok_status "rescheduled");
    status_line (JStr "rescheduled");
    ended_line (JStr "rescheduled");
    repausing_line;
    set_paused hubspot true no_content;
    error_line 204]).
Proof. reflexivity. Qed.

Example main_scenario :
  fst (main paused_world 2 []) = Returned tt /\
  skipn 3 (snd (main paused_world 2 [])) = paused_trace.
Proof. split; reflexivity. Qed.

Example b64encode_samples :
  b64encode "Man" = "TWFu" /\ b64encode "Ma" = "TWE=" /\
  b64encode "M" = "TQ==" /\ b64encode "" = "" /\
  b64encode "api_key:api_secret" = "YXBpX2tleTphcGlfc2VjcmV0".
Proof. repeat split; reflexivity. Qed.

(** * Further properties of the class *)

(** ** The shape determines the run *)

Lemma polls_det w self n fuel o1 ext1 o2 ext2 :
  polls w self n fuel o1 ext1 -> polls w self n fuel o2 ext2 ->
  o1 = o2 /\ ext1 = ext2.
Proof.
  intros H1. revert o2 ext2.
  induction H1 as [n|n fuel v o ext Hr Hs Hp IH|n fuel v Hr Hs|n fuel e Hr];
    intros o2 ext2 H2; inversion H2; subst; try (split; reflexivity);
    try congruence.
  - match goal with
    | H : polls _ _ (S n) fuel o2 _ |- _ => destruct (IH _ _ H) as [-> ->]
    end.
    assert (v0 = v) as -> by congruence. split; reflexivity.
  - assert (v0 = v) as -> by congruence. split; reflexivity.
  - assert (e0 = e) as -> by congruence. split; reflexivity.
Qed.

Lemma finishing_det w self n lo o1 ext1 o2 ext2 :
  finishing w self n lo o1 ext1 -> finishing w self n lo o2 ext2 ->
  o1 = o2 /\ ext1 = ext2.
Proof.
  intros H1 H2. destruct H1; inversion H2; subst; try (split; reflexivity);
    try (split; congruence); congruence.
Qed.

Lemma run_det w self fuel o1 tr1 o2 tr2 :
  run w self fuel o1 tr1 -> run w self fuel o2 tr2 -> o1 = o2 /\ tr1 = tr2.
Proof.
  intros H1 H2.
  destruct H1 as [e Hr|v0 e Hr Hres|v0 lo lext o fext Hr Hres Hp Hf];
    inversion H2; subst; try congruence.
  - split; congruence.
  - assert (v1 = v0) as -> by congruence. split; congruence.
  - assert (v1 = v0) as -> by congruence.
    match goal with
    | H : polls _ _ 1 fuel _ _ |- _ =>
        destruct (polls_det _ _ _ _ _ _ _ _ Hp H) as [-> ->]
    end.
    match goal with
    | H : finishing _ _ _ _ _ _ |- _ =>
        destruct (finishing_det _ _ _ _ _ _ _ _ Hf H) as [-> ->]
    end.
    split; reflexivity.
Qed.

Lemma run_call w self fuel o tr :
  run w self fuel o tr -> call w fuel self [] = (o, tr).
Proof.
  intros H. destruct (call w fuel self []) as [o' tr'] eqn:Heq.
  apply call_run in Heq. destruct (run_det _ _ _ _ _ _ _ Heq H) as [-> ->].
  reflexivity.
Qed.

Lemma replies_no_get (l : list event) : count is_get l = O -> replies l = [].
Proof.
  induction l as [|e l IH]; simpl; [reflexivity|].
  destruct e; simpl; auto; discriminate.
Qed.

Lemma total_sleep_no_sleep (l : list event) :
  count is_sleep l = O -> total_sleep l = 0.
Proof.
  induction l as [|e l IH]; simpl; [reflexivity|].
  destruct e; simpl; auto; discriminate.
Qed.

Lemma total_sleep_app (l1 l2 : list event) :
  total_sleep (l1 ++ l2) = total_sleep l1 + total_sleep l2.
Proof.
  induction l1 as [|e l1 IH]; simpl; [reflexivity|].
  destruct e; simpl; rewrite ?IH; lia.
Qed.

Lemma resume_answered w self v0 :
  (v0 = JStr "paused" -> answered (patch_reply w 0)) ->
  fst (resume w self v0) = Returned tt.
Proof.
  intros H. unfold resume. destruct (eq_str v0 "paused") eqn:Hv; [|reflexivity].
  apply eq_str_true in Hv. destruct (H Hv) as (resp & -> & Hresp).
  apply mutation_answered. assumption.
Qed.

(** ** Runs that end and runs that do not *)

Lemma polls_terminal w self k :
  forall n fuel v,
    (forall i, (i < k)%nat ->
       read_status (get_reply w (n + i)) = Returned (JStr "syncing")) ->
    read_status (get_reply w (n + k)) = Returned v ->
    v <> JStr "syncing" ->
    (k < fuel)%nat ->
    exists ext,
      polls w self n fuel (Returned v) ext /\
      replies ext = map (get_reply w) (seq n (S k)) /\
      total_sleep ext = 30 * Z.of_nat k.
Proof.
  induction k as [|k IH]; intros n fuel v Hsync Hend Hv Hfuel;
    (destruct fuel as [|fuel]; [lia|]).
  - rewrite Nat.add_0_r in Hend. eexists. split; [|split].
    + apply polls_end; [exact Hend|]. apply not_in_strs_syncing. exact Hv.
    + reflexivity.
    + reflexivity.
  - pose proof (Hsync O ltac:(lia)) as H0. rewrite Nat.add_0_r in H0.
    destruct (IH (S n) fuel v) as (ext & Hp & Hrep & Hsl).
    + intros i Hi. replace (S n + i)%nat with (n + S i)%nat by lia.
      apply Hsync. lia.
    + replace (S n + k)%nat with (n + S k)%nat by lia. exact Hend.
    + exact Hv.
    + lia.
    + eexists. split; [|split].
      * eapply polls_again; [exact H0|reflexivity|exact Hp].
      * simpl. rewrite Hrep. reflexivity.
      * simpl. rewrite Hsl. lia.
Qed.

Lemma polls_syncing w self fuel :
  forall n,
    (forall i, read_status (get_reply w (n + i)) = Returned (JStr "syncing")) ->
    exists ext,
      polls w self n fuel StillPolling ext /\
      count is_get ext = fuel /\
      total_sleep ext = 30 * Z.of_nat fuel.
Proof.
  induction fuel as [|fuel IH]; intros n Hsync.
  - exists []. split; [constructor|]. split; reflexivity.
  - pose proof (Hsync O) as H0. rewrite Nat.add_0_r in H0.
    destruct (IH (S n)) as (ext & Hp & Hc & Hsl).
    + intros i. replace (S n + i)%nat with (n + S i)%nat by lia. apply Hsync.
    + eexists. split; [|split].
      * eapply polls_again; [exact H0|reflexivity|exact Hp].
      * simpl. rewrite Hc. reflexivity.
      * simpl. rewrite Hsl. lia.
Qed.

(** X1.  A run that finds its first status, has its mutations answered
    and sees ['syncing'] at the first [k] polls and another status at the
    next one returns under every bound above [k]: it has made exactly
    those [k + 2] status queries, sent one pause request and slept
    [15 + 30 k] seconds. *)
Theorem run_completes w self k v0 v fuel :
  read_status (get_reply w 0) = Returned v0 ->
  (forall i, answered (patch_reply w i)) ->
  (forall i, (i < k)%nat ->
     read_status (get_reply w (S i)) = Returned (JStr "syncing")) ->
  read_status (get_reply w (S k)) = Returned v ->
  v <> JStr "syncing" ->
  (k < fuel)%nat ->
  exists tr,
    call w fuel self [] = (Returned tt, tr) /\
    replies tr = map (get_reply w) (seq 0 (S (S k))) /\
    count is_pause tr = 1%nat /\
    total_sleep tr = 15 + 30 * Z.of_nat k.
Proof.
  intros Hr Hans Hsync Hend Hv Hfuel.
  destruct (polls_terminal w self k 1 fuel v) as (lext & Hp & Hrep & Hsl);
    try assumption.
  assert (Hres : fst (resume w self v0) = Returned tt)
    by (apply resume_answered; intros _; apply Hans).
  set (n := count is_patch (snd (resume w self v0))).
  assert (Hm : fst (mutation self true (patch_reply w n)) = Returned tt).
  { destruct (Hans n) as (resp & -> & Hresp). apply mutation_answered.
    assumption. }
  eexists. split; [|split; [|split]].
  - apply run_call. eapply run_polls; eauto. apply finishing_done. exact Hm.
  - simpl. rewrite !replies_app. simpl. rewrite !replies_app. simpl.
    rewrite replies_app. simpl.
    rewrite (replies_no_get (snd (resume w self v0)))
      by (apply resume_count; reflexivity).
    rewrite (replies_no_get (snd (mutation self true _)))
      by (apply mutation_count; reflexivity).
    rewrite Hrep. simpl. rewrite app_nil_r. reflexivity.
  - simpl. rewrite !count_app. simpl. rewrite !count_app. simpl.
    rewrite count_app. simpl.
    rewrite (resume_count w self is_pause) by reflexivity.
    rewrite (polls_count w self is_pause ltac:(reflexivity) _ _ _ _
               ltac:(reflexivity) ltac:(reflexivity) Hp).
    rewrite mutation_count by reflexivity. reflexivity.
  - simpl. rewrite !total_sleep_app. simpl. rewrite !total_sleep_app. simpl.
    rewrite total_sleep_app. simpl.
    rewrite (total_sleep_no_sleep (snd (resume w self v0)))
      by (apply resume_count; reflexivity).
    rewrite (total_sleep_no_sleep (snd (mutation self true _)))
      by (apply mutation_count; reflexivity).
    rewrite Hsl. lia.
Qed.

Lemma run_completes_witness :
  exists tr,
    call paused_world 2 hubspot [] = (Returned tt, tr) /\
    replies tr = map (get_reply paused_world) (seq 0 3) /\
    count is_pause tr = 1%nat /\
    total_sleep tr = 15 + 30 * Z.of_nat 1.
Proof.
  apply (run_completes paused_world hubspot 1 (JStr "paused")
           (JStr "rescheduled") 2).
  - reflexivity.
  - intros i. eexists. split; [reflexivity|]. left. reflexivity.
  - intros [|i] Hi; [reflexivity|lia].
  - reflexivity.
  - discriminate.
  - lia.
Defined.

(** X2.  While every poll is answered ['syncing'] the run never ends:
    under every bound [n] it is still polling after [n + 1] status
    queries and [15 + 30 n] seconds of sleep, and it has sent no pause
    request. *)
Theorem run_never_ends_while_syncing w self v0 :
  read_status (get_reply w 0) = Returned v0 ->
  (v0 = JStr "paused" -> answered (patch_reply w 0)) ->
  (forall i, read_status (get_reply w (S i)) = Returned (JStr "syncing")) ->
  forall fuel,
  exists tr,
    call w fuel self [] = (StillPolling, tr) /\
    count is_get tr = S fuel /\
    count is_pause tr = O /\
    total_sleep tr = 15 + 30 * Z.of_nat fuel.
Proof.
  intros Hr Hans Hsync fuel.
  destruct (polls_syncing w self fuel 1) as (lext & Hp & Hc & Hsl);
    [exact Hsync|].
  pose proof (resume_answered w self v0 Hans) as Hres.
  eexists. split; [|split; [|split]].
  - apply run_call. eapply run_polls; eauto. apply finishing_cut.
  - simpl. rewrite !count_app. simpl. rewrite count_app. simpl.
    rewrite (resume_count w self is_get) by reflexivity. rewrite Hc. lia.
  - simpl. rewrite !count_app. simpl. rewrite count_app. simpl.
    rewrite (resume_count w self is_pause) by reflexivity.
    rewrite (polls_count w self is_pause ltac:(reflexivity) _ _ _ _
               ltac:(reflexivity) ltac:(reflexivity) Hp).
    reflexivity.
  - simpl. rewrite !total_sleep_app. simpl. rewrite total_sleep_app. simpl.
    rewrite (total_sleep_no_sleep (snd (resume w self v0)))
      by (apply resume_count; reflexivity).
    rewrite Hsl. lia.
Qed.

Lemma run_never_ends_while_syncing_witness :
  exists tr,
    call (scripted [] "syncing") 3 hubspot [] = (StillPolling, tr) /\
    count is_get tr = 4%nat /\
    count is_pause tr = O /\
    total_sleep tr = 15 + 30 * Z.of_nat 3.
Proof.
  apply (run_never_ends_while_syncing (scripted [] "syncing") hubspot
           (JStr "syncing")).
  - reflexivity.
  - discriminate.
  - intros i. destruct i as [|[|i]]; reflexivity.
Defined.

(** ** Time spent *)

Lemma polls_ended_sleep w self n fuel o ext :
  polls w self n fuel o ext -> o <> StillPolling ->
  total_sleep ext = 30 * (Z.of_nat (count is_get ext) - 1).
Proof.
  intros H. induction H as [n|n fuel v o ext Hr Hs Hp IH|n fuel v Hr Hs|n fuel e Hr];
    intros Ho; [congruence| | |]; simpl; [|reflexivity|reflexivity].
  rewrite (IH Ho). lia.
Qed.

(** X5.  A run that returns has slept 15 seconds once and then 30
    seconds after every status query but the first and the last: with
    [n] status queries in its trace, [15 + 30 (n - 2)] seconds. *)
Theorem completed_run_sleep w self fuel tr :
  call w fuel self [] = (Returned tt, tr) ->
  total_sleep tr = 15 + 30 * (Z.of_nat (count is_get tr) - 2).
Proof.
  intros H. apply call_run in H. inversion H as [| |v0 lo lext o fext Hr Hres Hp Hf];
    subst.
  simpl. rewrite !total_sleep_app, !count_app. simpl.
  rewrite !total_sleep_app, !count_app.
  rewrite (total_sleep_no_sleep (snd (resume w self v0)))
    by (apply resume_count; reflexivity).
  rewrite (resume_count w self is_get) by reflexivity.
  rewrite (total_sleep_no_sleep fext)
    by (eapply finishing_count; eauto; reflexivity).
  rewrite (finishing_count w self is_get ltac:(reflexivity) _ _ _ _
             ltac:(reflexivity) Hf).
  rewrite (polls_ended_sleep _ _ _ _ _ _ Hp) by (inversion Hf; congruence).
  lia.
Qed.

Lemma completed_run_sleep_witness :
  total_sleep paused_trace = 15 + 30 * (Z.of_nat (count is_get paused_trace) - 2).
Proof.
  apply (completed_run_sleep paused_world hubspot 2 paused_trace).
  reflexivity.
Defined.

(** ** Mutations that fail *)

(** X8.  When the connector is found paused and the unpause request
    fails, the run ends there with the exception of the mutation: it has
    not slept, has made no poll and has sent no pause request. *)
Theorem failed_unpause_aborts w self fuel :
  read_status (get_reply w 0) = Returned (JStr "paused") ->
  (patch_reply w 0 = NetFail ->
   call w fuel self [] =
   (Raised ConnectionError,
    [status_query self (get_reply w 0); set_paused self false NetFail])) /\
  (forall resp,
     patch_reply w 0 = NetResp resp ->
     status_code resp <> 200 -> resp_json resp = None ->
     call w fuel self [] =
     (Raised JSONDecodeError,
      [status_query self (get_reply w 0);
       set_paused self false (NetResp resp);
       error_line (status_code resp)])).
Proof.
  intros Hr. split.
  - intros Hp. apply run_call.
    pose proof (run_resume_raises w self fuel (JStr "paused") ConnectionError Hr)
      as H.
    rewrite resume_paused, Hp in H. apply H. reflexivity.
  - intros resp Hp Hc Hj. apply run_call.
    pose proof (run_resume_raises w self fuel (JStr "paused") JSONDecodeError Hr)
      as H.
    rewrite resume_paused, Hp in H. simpl in H.
    destruct (status_code resp =? 200) eqn:Hc';
      [apply Z.eqb_eq in Hc'; contradiction|].
    rewrite Hj in H. apply H. reflexivity.
Qed.

(** The connector is paused and the control plane cannot be reached for
    mutations. *)
Lemma failed_unpause_aborts_witness :
  call {| secrets_get := fun _ key => key;
          widgets_get := fun _ => "hubspot";
          get_reply := fun _ => ok_status "paused";
          patch_reply := fun _ => NetFail |} 4 hubspot [] =
  (Raised ConnectionError,
   [status_query hubspot (ok_status "paused");
    set_paused hubspot false NetFail]) /\
  call {| secrets_get := fun _ key => key;
          widgets_get := fun _ => "hubspot";
          get_reply := fun _ => ok_status "paused";
          patch_reply := fun _ => no_content |} 4 hubspot [] =
  (Raised JSONDecodeError,
   [status_query hubspot (ok_status "paused");
    set_paused hubspot false no_content;
    error_line 204]).
Proof.
  split.
  - apply (failed_unpause_aborts
             {| secrets_get := fun _ key => key;
                widgets_get := fun _ => "hubspot";
                get_reply := fun _ => ok_status "paused";
                patch_reply := fun _ => NetFail |} hubspot 4);
      reflexivity.
  - apply (failed_unpause_aborts
             {| secrets_get := fun _ key => key;
                widgets_get := fun _ => "hubspot";
                get_reply := fun _ => ok_status "paused";
                patch_reply := fun _ => no_content |} hubspot 4 eq_refl).
    + reflexivity.
    + discriminate.
    + reflexivity.
Defined.

(** Where the pause request of a run sits, and what follows it. *)
Lemma pause_position w self fuel o tr a r c :
  run w self fuel o tr ->
  tr = a ++ set_paused self true r :: c ->
  o = fst (mutation self true r) /\
  c = snd (mutation self true r)
      ++ match fst (mutation self true r) with
         | Returned _ => [start_line]
         | _ => []
         end.
Proof.
  intros H Htr.
  assert (Hno : count is_pause tr = O -> False).
  { intros Hc.
    pose proof (count_split_pos is_pause a c (set_paused self true r) eq_refl).
    rewrite <- Htr in *. lia. }
  destruct H as [e Hr|v0 e Hr Hres|v0 lo lext o fext Hr Hres Hp Hf].
  - exfalso. apply Hno. reflexivity.
  - exfalso. apply Hno. simpl. apply resume_count; reflexivity.
  - assert (Hpre : count is_pause
              (status_query self (get_reply w 0) :: snd (resume w self v0)
               ++ waiting_line :: Sleep 15 :: lext) = O).
    { simpl. rewrite !count_app. simpl.
      rewrite (resume_count w self is_pause) by reflexivity.
      rewrite (polls_count w self is_pause ltac:(reflexivity) _ _ _ _
                 ltac:(reflexivity) ltac:(reflexivity) Hp).
      reflexivity. }
    assert (Htr' : a ++ set_paused self true r :: c =
              (status_query self (get_reply w 0) :: snd (resume w self v0)
               ++ waiting_line :: Sleep 15 :: lext) ++ fext)
      by (rewrite <- Htr; flatten_log).
    apply (split_after is_pause) in Htr' as (m & -> & Hf');
      [|exact Hpre|reflexivity].
    destruct Hf as [|e|v e Hm|v Hm];
      try (exfalso; destruct m; discriminate).
    + destruct m as [|y m]; simpl in Hf'; [discriminate|].
      injection Hf' as _ Hf'.
      destruct m as [|z m]; simpl in Hf'.
      * injection Hf' as <- <-. rewrite Hm, app_nil_r. split; reflexivity.
      * exfalso. injection Hf' as _ Hf'.
        pose proof (count_split_pos is_patch m c (set_paused self true r)
                      eq_refl) as Hc.
        rewrite <- Hf', mutation_count in Hc by reflexivity. lia.
    + destruct m as [|y m]; simpl in Hf'; [discriminate|].
      injection Hf' as _ Hf'.
      destruct m as [|z m]; simpl in Hf'.
      * injection Hf' as <- <-. rewrite Hm. split; reflexivity.
      * exfalso. injection Hf' as _ Hf'.
        pose proof (count_split_pos is_patch m c (set_paused self true r)
                      eq_refl) as Hc.
        rewrite <- Hf', count_app, mutation_count in Hc by reflexivity.
        simpl in Hc. lia.
Qed.

(** X9.  When the pause request at the end of a run fails, the run
    raises the exception of the mutation instead of returning: nothing
    follows the request when no response arrived, and only the error
    line follows it when the response was not 200 and had no JSON body. *)
Theorem failed_pause_fails_run w self fuel o tr :
  call w fuel self [] = (o, tr) ->
  forall a r c,
    tr = a ++ set_paused self true r :: c ->
    (r = NetFail -> o = Raised ConnectionError /\ c = []) /\
    (forall resp,
       r = NetResp resp -> status_code resp <> 200 -> resp_json resp = None ->
       o = Raised JSONDecodeError /\ c = [error_line (status_code resp)]).
Proof.
  intros H a r c Htr. apply call_run in H.
  destruct (pause_position _ _ _ _ _ _ _ _ H Htr) as [-> ->].
  split.
  - intros ->. split; reflexivity.
  - intros resp -> Hc Hj. simpl.
    destruct (status_code resp =? 200) eqn:Hc';
      [apply Z.eqb_eq in Hc'; contradiction|].
    rewrite Hj. split; reflexivity.
Qed.

Lemma failed_pause_fails_run_witness :
  call no_content_world 1 hubspot [] =
  (Raised JSONDecodeError,
   [status_query hubspot (ok_status "rescheduled");
    waiting_line;
    Sleep 15;
    status_query hubspot (ok_status "rescheduled");
    status_line (JStr "rescheduled");
    ended_line (JStr "rescheduled");
    repausing_line]
   ++ set_paused hubspot true no_content :: [error_line 204]) /\
  Raised JSONDecodeError = Raised JSONDecodeError :> outcome unit /\
  [error_line 204] = [error_line 204].
Proof.
  split; [reflexivity|].
  destruct (failed_pause_fails_run no_content_world hubspot 1
              (Raised JSONDecodeError)
              ([status_query hubspot (ok_status "rescheduled");
                waiting_line;
                Sleep 15;
                status_query hubspot (ok_status "rescheduled");
                status_line (JStr "rescheduled");
                ended_line (JStr "rescheduled");
                repausing_line]
               ++ set_paused hubspot true no_content :: [error_line 204])
              eq_refl
              [status_query hubspot (ok_status "rescheduled");
               waiting_line;
               Sleep 15;
               status_query hubspot (ok_status "rescheduled");
               status_line (JStr "rescheduled");
               ended_line (JStr "rescheduled");
               repausing_line]
              no_content [error_line 204] eq_refl) as [_ H].
  apply (H {| status_code := 204; resp_json := None |}).
  - reflexivity.
  - discriminate.
  - reflexivity.
Defined.

(** ** The requests of a run *)

Section OwnConnector.

Variable w : World.
Variable self : FivetranAPI.

Abbreviation own := (own_request self).

Lemma own_quiet (l : list event) : count is_network l = O -> Forall own l.
Proof.
  intros H. apply Forall_forall. intros e He Hn.
  rewrite (count_zero_elem is_network l e H He) in Hn. discriminate.
Qed.

Lemma own_status_query r : own (status_query self r).
Proof. intros _. left. eauto. Qed.

Lemma own_set_paused b r : own (set_paused self b r).
Proof. intros _. right. eauto. Qed.

Lemma own_polls n fuel o ext : polls w self n fuel o ext -> Forall own ext.
Proof.
  intros H.
  induction H as [n|n fuel v o ext Hr Hs Hp IH|n fuel v Hr Hs|n fuel e Hr].
  - apply Forall_nil_2.
  - apply Forall_cons_2; [apply own_status_query|].
    apply Forall_cons_2; [intros [=]|].
    apply Forall_cons_2; [intros [=]|exact IH].
  - apply Forall_cons_2; [apply own_status_query|].
    apply Forall_cons_2; [intros [=]|].
    apply Forall_cons_2; [intros [=]|apply Forall_nil_2].
  - apply Forall_cons_2; [apply own_status_query|apply Forall_nil_2].
Qed.

(** X10.  Every request of a run is a status query on the connector of
    the object, carrying its authorisation header, or a mutation of that
    connector, carrying its credentials: a run never addresses another
    connector or another endpoint. *)
Theorem run_requests_own_connector fuel o tr :
  call w fuel self [] = (o, tr) ->
  forall e, e ∈ tr -> is_network e = true ->
  (exists r, e = status_query self r) \/ (exists b r, e = set_paused self b r).
Proof.
  intros H. apply call_run in H.
  assert (HF : Forall own tr).
  { assert (HR : forall v0, Forall own (snd (resume w self v0))).
    { intros v0. unfold resume. destruct (eq_str v0 "paused"); simpl;
        [|apply Forall_nil_2].
      apply Forall_cons_2; [apply own_set_paused|].
      apply own_quiet, mutation_count. reflexivity. }
    destruct H as [e Hr|v0 e Hr Hres|v0 lo lext o fext Hr Hres Hp Hf].
    - apply Forall_cons_2; [apply own_status_query|apply Forall_nil_2].
    - apply Forall_cons_2; [apply own_status_query|apply HR].
    - apply Forall_cons_2; [apply own_status_query|].
      apply Forall_app. split; [apply HR|].
      apply Forall_cons_2; [intros [=]|]. apply Forall_cons_2; [intros [=]|].
      apply Forall_app. split; [eapply own_polls; eauto|].
      destruct Hf; try apply Forall_nil_2.
      + apply Forall_cons_2; [intros [=]|].
        apply Forall_cons_2; [apply own_set_paused|].
        apply own_quiet, mutation_count. reflexivity.
      + apply Forall_cons_2; [intros [=]|].
        apply Forall_cons_2; [apply own_set_paused|].
        apply own_quiet. rewrite count_app, mutation_count by reflexivity.
        reflexivity. }
  intros e He. exact (proj1 (Forall_forall _ _) HF e He).
Qed.

End OwnConnector.

Lemma run_requests_own_connector_witness :
  (exists r, set_paused hubspot true ok_patch = status_query hubspot r) \/
  (exists b r, set_paused hubspot true ok_patch = set_paused hubspot b r).
Proof.
  apply (run_requests_own_connector paused_world hubspot 2 (Returned tt)
           paused_trace eq_refl).
  - unfold paused_trace. do 12 apply list_elem_of_further.
    apply list_elem_of_here.
  - reflexivity.
Defined.

(** ** The authorisation header *)

Lemma bytes_complete (a : N) : (a < 256)%N -> In a bytes.
Proof.
  intros Ha. unfold bytes. apply in_map_iff. exists (N.to_nat a).
  split; [apply N2Nat.id|]. apply in_seq. lia.
Qed.

Lemma for_bytes (P : N -> bool) :
  forallb P bytes = true -> forall a, (a < 256)%N -> P a = true.
Proof.
  intros H a Ha. rewrite forallb_forall in H. apply H, bytes_complete, Ha.
Qed.

Lemma for_byte_pairs (P : N -> N -> bool) :
  forallb (fun a => forallb (P a) bytes) bytes = true ->
  forall a b, (a < 256)%N -> (b < 256)%N -> P a b = true.
Proof.
  intros H a b Ha Hb.
  apply (for_bytes (P a)); [|exact Hb].
  apply (for_bytes (fun a => forallb (P a) bytes)); assumption.
Qed.

Lemma unblocks_one a : (a < 256)%N -> b64_unblocks (b64_blocks [a]) = [a].
Proof.
  intros Ha.
  apply (bool_decide_eq_true_1 (b64_unblocks (b64_blocks [a]) = [a])).
  revert a Ha.
  apply (for_bytes (fun a => same_bytes (b64_unblocks (b64_blocks [a])) [a])).
  vm_compute. reflexivity.
Qed.

Lemma unblocks_two a b :
  (a < 256)%N -> (b < 256)%N -> b64_unblocks (b64_blocks [a; b]) = [a; b].
Proof.
  intros Ha Hb.
  apply (bool_decide_eq_true_1 (b64_unblocks (b64_blocks [a; b]) = [a; b])).
  revert a b Ha Hb.
  apply (for_byte_pairs
           (fun a b => same_bytes (b64_unblocks (b64_blocks [a; b])) [a; b])).
  vm_compute. reflexivity.
Qed.

Lemma third_digit_not_padding b c :
  (b < 256)%N -> (c < 256)%N ->
  Ascii.eqb (b64_digit (N.lor (N.shiftl (N.land b 15) 2) (N.shiftr c 6)))
    "="%char = false.
Proof.
  intros Hb Hc. apply negb_true_iff. revert b c Hb Hc.
  apply (for_byte_pairs (fun b c =>
    negb (Ascii.eqb
            (b64_digit (N.lor (N.shiftl (N.land b 15) 2) (N.shiftr c 6)))
            "="%char))).
  vm_compute. reflexivity.
Qed.

Lemma fourth_digit_not_padding c :
  (c < 256)%N -> Ascii.eqb (b64_digit (N.land c 63)) "="%char = false.
Proof.
  intros Hc. apply negb_true_iff. revert c Hc.
  apply (for_bytes (fun c =>
    negb (Ascii.eqb (b64_digit (N.land c 63)) "="%char))).
  vm_compute. reflexivity.
Qed.

Lemma first_byte_back a b :
  (a < 256)%N -> (b < 256)%N ->
  N.lor (N.shiftl (b64_index (b64_digit (N.shiftr a 2))) 2)
    (N.shiftr
       (b64_index
          (b64_digit (N.lor (N.shiftl (N.land a 3) 4) (N.shiftr b 4)))) 4) = a.
Proof.
  intros Ha Hb. apply N.eqb_eq. revert a b Ha Hb.
  apply (for_byte_pairs (fun a b =>
    N.eqb
      (N.lor (N.shiftl (b64_index (b64_digit (N.shiftr a 2))) 2)
         (N.shiftr
            (b64_index
               (b64_digit (N.lor (N.shiftl (N.land a 3) 4) (N.shiftr b 4))))
            4)) a)).
  vm_compute. reflexivity.
Qed.

Lemma second_byte_high a b :
  (a < 256)%N -> (b < 256)%N ->
  N.shiftl
    (N.land
       (b64_index
          (b64_digit (N.lor (N.shiftl (N.land a 3) 4) (N.shiftr b 4)))) 15) 4
  = N.shiftl (N.shiftr b 4) 4.
Proof.
  intros Ha Hb. apply N.eqb_eq. revert a b Ha Hb.
  apply (for_byte_pairs (fun a b =>
    N.eqb
      (N.shiftl
         (N.land
            (b64_index
               (b64_digit (N.lor (N.shiftl (N.land a 3) 4) (N.shiftr b 4))))
            15) 4)
      (N.shiftl (N.shiftr b 4) 4))).
  vm_compute. reflexivity.
Qed.

Lemma second_byte_low b c :
  (b < 256)%N -> (c < 256)%N ->
  N.shiftr
    (b64_index
       (b64_digit (N.lor (N.shiftl (N.land b 15) 2) (N.shiftr c 6)))) 2
  = N.land b 15.
Proof.
  intros Hb Hc. apply N.eqb_eq. revert b c Hb Hc.
  apply (for_byte_pairs (fun b c =>
    N.eqb
      (N.shiftr
         (b64_index
            (b64_digit (N.lor (N.shiftl (N.land b 15) 2) (N.shiftr c 6)))) 2)
      (N.land b 15))).
  vm_compute. reflexivity.
Qed.

Lemma second_byte_halves b :
  (b < 256)%N -> N.lor (N.shiftl (N.shiftr b 4) 4) (N.land b 15) = b.
Proof.
  intros Hb. apply N.eqb_eq. revert b Hb.
  apply (for_bytes (fun b =>
    N.eqb (N.lor (N.shiftl (N.shiftr b 4) 4) (N.land b 15)) b)).
  vm_compute. reflexivity.
Qed.

Lemma third_byte_back b c :
  (b < 256)%N -> (c < 256)%N ->
  N.lor
    (N.shiftl
       (N.land
          (b64_index
             (b64_digit (N.lor (N.shiftl (N.land b 15) 2) (N.shiftr c 6)))) 3)
       6)
    (b64_index (b64_digit (N.land c 63))) = c.
Proof.
  intros Hb Hc. apply N.eqb_eq. revert b c Hb Hc.
  apply (for_byte_pairs (fun b c =>
    N.eqb
      (N.lor
         (N.shiftl
            (N.land
               (b64_index
                  (b64_digit (N.lor (N.shiftl (N.land b 15) 2) (N.shiftr c 6))))
               3) 6)
         (b64_index (b64_digit (N.land c 63)))) c)).
  vm_compute. reflexivity.
Qed.

Lemma unblocks_three a b c rest :
  (a < 256)%N -> (b < 256)%N -> (c < 256)%N ->
  b64_unblocks (b64_blocks (a :: b :: c :: rest)) =
  a :: b :: c :: b64_unblocks (b64_blocks rest).
Proof.
  intros Ha Hb Hc.
  change (b64_blocks (a :: b :: c :: rest)) with
    (b64_digit (N.shiftr a 2)
     :: b64_digit (N.lor (N.shiftl (N.land a 3) 4) (N.shiftr b 4))
     :: b64_digit (N.lor (N.shiftl (N.land b 15) 2) (N.shiftr c 6))
     :: b64_digit (N.land c 63)
     :: b64_blocks rest).
  cbn [b64_unblocks].
  rewrite third_digit_not_padding, fourth_digit_not_padding by assumption.
  rewrite first_byte_back, (second_byte_high a b), second_byte_low,
    second_byte_halves, third_byte_back by assumption.
  reflexivity.
Qed.

Lemma unblocks_blocks (bs : list N) :
  Forall (fun a => (a < 256)%N) bs -> b64_unblocks (b64_blocks bs) = bs.
Proof.
  assert (H : forall n bs, (length bs <= n)%nat ->
                Forall (fun a => (a < 256)%N) bs ->
                b64_unblocks (b64_blocks bs) = bs).
  { clear bs. induction n as [|n IH]; intros bs Hlen Hbs.
    - destruct bs; [reflexivity|simpl in Hlen; lia].
    - destruct bs as [|a [|b [|c rest]]].
      + reflexivity.
      + apply unblocks_one. apply (Forall_inv Hbs).
      + apply unblocks_two.
        * apply (Forall_inv Hbs).
        * apply (Forall_inv (Forall_inv_tail Hbs)).
      + pose proof (Forall_inv Hbs) as Ha.
        pose proof (Forall_inv (Forall_inv_tail Hbs)) as Hb.
        pose proof (Forall_inv (Forall_inv_tail (Forall_inv_tail Hbs))) as Hc.
        simpl in Ha, Hb, Hc.
        rewrite unblocks_three by assumption.
        rewrite IH; [reflexivity|simpl in Hlen; lia|].
        apply (Forall_inv_tail (Forall_inv_tail (Forall_inv_tail Hbs))). }
  intros Hbs. apply (H (length bs)); [lia|exact Hbs].
Qed.

(** The token is reversible: decoding the base64 text of any string
    gives the string back. *)
Lemma b64decode_b64encode (s : string) : b64decode (b64encode s) = s.
Proof.
  unfold b64decode, b64encode.
  rewrite list_ascii_of_string_of_list_ascii.
  rewrite unblocks_blocks.
  - rewrite map_map.
    rewrite (map_ext _ (fun c => c)) by (intros c; apply ascii_N_embedding).
    rewrite map_id. apply string_of_list_ascii_of_string.
  - apply Forall_forall. intros a Ha. apply list_elem_of_In in Ha.
    apply in_map_iff in Ha as (c & <- & _). apply N_ascii_bounded.
Qed.

Lemma no_colon_split k1 s1 k2 s2 :
  no_colon k1 = true -> no_colon k2 = true ->
  k1 +:+ ":" +:+ s1 = k2 +:+ ":" +:+ s2 ->
  k1 = k2 /\ s1 = s2.
Proof.
  revert k2. induction k1 as [|c k1 IH]; intros [|c2 k2] H1 H2 Heq;
    simpl in H1, H2; cbv [String.append] in Heq; fold String.append in Heq.
  - injection Heq as ->. split; reflexivity.
  - injection Heq as <- _. discriminate.
  - injection Heq as -> _. discriminate.
  - injection Heq as -> Heq.
    apply andb_true_iff in H1 as [_ H1]. apply andb_true_iff in H2 as [_ H2].
    destruct (IH k2 H1 H2 Heq) as [-> ->]. split; reflexivity.
Qed.

Lemma prefix_cancel (p s t : string) : p +:+ s = p +:+ t -> s = t.
Proof.
  induction p as [|c p IH]; intros H; cbv [String.append] in H;
    fold String.append in H; [exact H|].
  injection H as H. apply IH, H.
Qed.

(** X11.  The authorisation header determines the credential string
    [key:secret]: two objects with the same header have the same string,
    and, when neither key holds a colon, the same key and the same
    secret. *)
Theorem auth_header_determines_credentials self1 self2 :
  get_auth_header self1 = get_auth_header self2 ->
  API_KEY self1 +:+ ":" +:+ API_SECRET self1 =
  API_KEY self2 +:+ ":" +:+ API_SECRET self2 /\
  (no_colon (API_KEY self1) = true -> no_colon (API_KEY self2) = true ->
   API_KEY self1 = API_KEY self2 /\ API_SECRET self1 = API_SECRET self2).
Proof.
  intros H. unfold get_auth_header in H.
  apply (f_equal (fun m : gmap string string => m !! "Authorization")) in H.
  rewrite !lookup_singleton_eq in H. injection H as H.
  apply prefix_cancel in H.
  apply (f_equal b64decode) in H. rewrite !b64decode_b64encode in H.
  split; [exact H|]. intros H1 H2. eapply no_colon_split; eassumption.
Qed.

Lemma auth_header_determines_credentials_witness :
  API_KEY hubspot +:+ ":" +:+ API_SECRET hubspot =
  "api_key" +:+ ":" +:+ "api_secret" /\
  (no_colon (API_KEY hubspot) = true -> no_colon "api_key" = true ->
   API_KEY hubspot = "api_key" /\ API_SECRET hubspot = "api_secret").
Proof.
  apply (auth_header_determines_credentials hubspot
           {| URL := "https://api.fivetran.com/v1"; API_KEY := "api_key";
              API_SECRET := "api_secret"; CONNECTOR_NAME := "tidy_interval" |}).
  reflexivity.
Defined.

(** A colon inside the key moves the boundary between key and secret. *)
Example auth_header_colon_in_key :
  get_auth_header {| URL := ""; API_KEY := "a:b"; API_SECRET := "c";
                     CONNECTOR_NAME := "" |} =
  get_auth_header {| URL := ""; API_KEY := "a"; API_SECRET := "b:c";
                     CONNECTOR_NAME := "" |}.
Proof. reflexivity. Qed.

Lemma b64_blocks_length (bs : list N) :
  length (b64_blocks bs) = (4 * ((length bs + 2) / 3))%nat.
Proof.
  assert (H : forall n bs, (length bs <= n)%nat ->
                length (b64_blocks bs) = (4 * ((length bs + 2) / 3))%nat).
  { clear bs. induction n as [|n IH]; intros bs Hlen.
    - destruct bs; [reflexivity|simpl in Hlen; lia].
    - destruct bs as [|a [|b [|c rest]]]; try reflexivity.
      change (b64_blocks (a :: b :: c :: rest)) with
        (b64_digit (N.shiftr a 2)
         :: b64_digit (N.lor (N.shiftl (N.land a 3) 4) (N.shiftr b 4))
         :: b64_digit (N.lor (N.shiftl (N.land b 15) 2) (N.shiftr c 6))
         :: b64_digit (N.land c 63)
         :: b64_blocks rest).
      cbn [length]. rewrite IH by (simpl in Hlen; lia).
      replace (S (S (S (length rest))) + 2)%nat
        with (1 * 3 + (length rest + 2))%nat by lia.
      rewrite Nat.div_add_l by lia. lia. }
  apply (H (length bs)). lia.
Qed.

Lemma length_list_ascii (s : string) :
  length (list_ascii_of_string s) = String.length s.
Proof. induction s as [|c s IH]; simpl; [reflexivity|rewrite IH; reflexivity]. Qed.

Lemma length_string_of_list (l : list ascii) :
  String.length (string_of_list_ascii l) = length l.
Proof. induction l as [|c l IH]; simpl; [reflexivity|rewrite IH; reflexivity]. Qed.

(** The base64 text of [n] bytes has [4 * ceil(n / 3)] characters: whole
    groups of four, the last one padded. *)
Lemma b64encode_length (s : string) :
  String.length (b64encode s) = (4 * ((String.length s + 2) / 3))%nat.
Proof.
  unfold b64encode.
  rewrite length_string_of_list, b64_blocks_length, length_map.
  rewrite length_list_ascii. reflexivity.
Qed.

(** ** The mapping of names *)

(** X13.  The mapping sends different logical names to different
    connectors: two names that construction resolves to the same
    connector id are the same name. *)
Theorem connector_ids_injective name1 name2 id :
  CONNECTOR_IDS !! name1 = Some id ->
  CONNECTOR_IDS !! name2 = Some id ->
  name1 = name2.
Proof.
  intros H1 H2. apply CONNECTOR_IDS_table in H1, H2.
  rewrite !elem_of_cons, elem_of_nil in H1, H2.
  destruct H1 as [H1|[H1|[H1|[H1|[H1|[]]]]]]; injection H1 as -> ->;
    destruct H2 as [H2|[H2|[H2|[H2|[H2|[]]]]]]; inversion H2; reflexivity.
Qed.

Lemma connector_ids_injective_witness : "hubspot" = "hubspot".
Proof.
  apply (connector_ids_injective "hubspot" "hubspot" "embarkation_cropped");
    reflexivity.
Defined.

(** ** The last line on the console *)

Lemma last_line_app (l1 l2 : list event) :
  last_line (l1 ++ l2) =
  match last_line l2 with
  | Some e => Some e
  | None => last_line l1
  end.
Proof.
  induction l1 as [|x l1 IH]; simpl.
  - destruct (last_line l2); reflexivity.
  - rewrite IH. destruct (last_line l2); reflexivity.
Qed.

Lemma last_line_elem (l : list event) e : last_line l = Some e -> e ∈ l.
Proof.
  induction l as [|x l IH]; simpl; [discriminate|].
  destruct (last_line l) as [e'|].
  - intros [= <-]. apply list_elem_of_further, IH. reflexivity.
  - destruct (is_print x); [|discriminate].
    intros [= <-]. apply list_elem_of_here.
Qed.

Lemma last_line_quiet (l : list event) e :
  count shows_start_line l = O -> last_line l = Some e ->
  shows_start_line e = false.
Proof.
  intros Hc He. eapply count_zero_elem; [exact Hc|].
  apply last_line_elem, He.
Qed.

Lemma polls_no_start_line w self n fuel o ext :
  polls w self n fuel o ext -> count shows_start_line ext = O.
Proof. intros H. induction H; simpl; auto. Qed.

(** A mutation that raises has printed at most the error line. *)
Lemma mutation_raised_no_start_line self b r e :
  fst (mutation self b r) = Raised e ->
  count shows_start_line (snd (mutation self b r)) = O.
Proof.
  destruct r as [|[code body]]; simpl; [reflexivity|].
  destruct (code =? 200); simpl; [discriminate|].
  destruct body; simpl; [discriminate|reflexivity].
Qed.

(** X6.  The console output of a run ends with the line
    ['Start your pipeline!'] exactly when the run returns: a run that
    returns prints that line as its last event, and in a run that raises
    or is still polling the last line written is another one, even when
    a response body printed earlier by a mutation had the same text. *)
Theorem console_ends_on_start_line_iff_returned w self fuel o tr :
  call w fuel self [] = (o, tr) ->
  (o = Returned tt ->
   last tr = Some start_line /\ last_line tr = Some start_line) /\
  (o <> Returned tt ->
   forall e, last_line tr = Some e -> shows_start_line e = false).
Proof.
  intros H. apply call_run in H.
  destruct H as [e Hr|v0 e Hr Hres|v0 lo lext o fext Hr Hres Hp Hf].
  - split; [discriminate|]. intros _ e0. apply last_line_quiet. reflexivity.
  - split; [discriminate|]. intros _ e0. apply last_line_quiet.
    simpl. unfold resume in *. destruct (eq_str v0 "paused"); [|reflexivity].
    simpl in *. eapply mutation_raised_no_start_line. eassumption.
  - pose proof (polls_no_start_line _ _ _ _ _ _ Hp) as HL.
    assert (Hsuffix : forall tail e0,
              count shows_start_line tail = O ->
              last_line
                (status_query self (get_reply w 0) :: snd (resume w self v0)
                 ++ waiting_line :: Sleep 15 :: lext ++ tail) = Some e0 ->
              shows_start_line e0 = false).
    { intros tail e0 Ht He.
      change (status_query self (get_reply w 0) :: snd (resume w self v0)
              ++ waiting_line :: Sleep 15 :: lext ++ tail)
        with ((status_query self (get_reply w 0) :: snd (resume w self v0))
              ++ waiting_line :: Sleep 15 :: lext ++ tail) in He.
      rewrite last_line_app in He.
      destruct (last_line (waiting_line :: Sleep 15 :: lext ++ tail))
        as [e1|] eqn:H1.
      - injection He as <-. eapply last_line_quiet; [|exact H1].
        simpl. rewrite count_app, HL, Ht. reflexivity.
      - simpl in H1.
        destruct (last_line (lext ++ tail)); discriminate. }
    destruct Hf as [|e|v e Hm|v Hm].
    + split; [discriminate|]. intros _ e0. apply Hsuffix. reflexivity.
    + split; [discriminate|]. intros _ e0. apply Hsuffix. reflexivity.
    + split; [discriminate|]. intros _ e0. apply Hsuffix. simpl.
      eapply mutation_raised_no_start_line. eassumption.
    + split; [|congruence]. intros _.
      match goal with
      | |- last ?t = _ /\ _ =>
          replace t with
            ((status_query self (get_reply w 0) :: snd (resume w self v0)
              ++ waiting_line :: Sleep 15 :: lext
              ++ repausing_line
                 :: set_paused self true
                      (patch_reply w (count is_patch (snd (resume w self v0))))
                 :: snd (mutation self true
                      (patch_reply w (count is_patch (snd (resume w self v0))))))
             ++ [start_line]) by flatten_log
      end.
      split; [apply last_snoc|]. rewrite last_line_app. reflexivity.
Qed.

(** The connector is paused; the control plane rejects the unpause with
    a body that is the text of the last line, and cannot be reached
    afterwards. *)
Lemma console_ends_on_start_line_iff_returned_witness :
  (last paused_trace = Some start_line /\
   last_line paused_trace = Some start_line) /\
  shows_start_line waiting_line = false.
Proof.
  split.
  - apply (console_ends_on_start_line_iff_returned paused_world hubspot 2
             (Returned tt) paused_trace eq_refl).
    reflexivity.
  - apply (console_ends_on_start_line_iff_returned
             {| secrets_get := fun _ key => key;
                widgets_get := fun _ => "hubspot";
                get_reply := fun n =>
                  if (n <? 1)%nat then ok_status "paused" else NetFail;
                patch_reply := fun _ =>
                  NetResp {| status_code := 403;
                             resp_json := Some (JStr "Start your pipeline!") |} |}
             hubspot 1 (Raised ConnectionError)
             [status_query hubspot (ok_status "paused");
              set_paused hubspot false
                (NetResp {| status_code := 403;
                            resp_json := Some (JStr "Start your pipeline!") |});
              error_line 403;
              Print [Val (JStr "Start your pipeline!")];
              waiting_line;
              Sleep 15;
              status_query hubspot NetFail]
             eq_refl).
    + discriminate.
    + reflexivity.
Defined.

(** ** Mutations and status codes *)



(** ** The size of the header *)

(** X12.  The header of an object has the one entry [Authorization],
    whose value is [Basic] followed by a token of [4 * ceil(n / 3)]
    characters, where [n] counts the bytes of [key:secret] (the strings
    of this development are the UTF-8 bytes of the Python strings). *)
Theorem auth_header_token_length self :
  exists token,
    get_auth_header self = {[ "Authorization" := "Basic " +:+ token ]} /\
    String.length token =
    (4 * ((String.length (API_KEY self +:+ ":" +:+ API_SECRET self) + 2) / 3))%nat.
Proof.
  eexists. split; [reflexivity|]. apply b64encode_length.
Qed.
